(** * Feature selection by backward stepwise elimination

    A shallow embedding of the four search functions of
    [feature_selection_lennart_wallentin.ipynb]:

    - [interpretable_feature_selection]          (broad, exploratory)
    - [interpretable_precise_feature_selection]  (precise, exploratory)
    - [automated_feature_selection]              (broad, automated)
    - [automated_precise_feature_selection]      (precise, automated)

    AUC scores, importance scores, [auc_limit] and [ci] are Python floats
    in the notebook; here they are exact rationals ([Q]), so rounding
    error of the floating-point unit is outside the model.  Integers are
    [Z].  The functions run in a small state-and-exception monad whose
    state holds the pandas objects (by reference), the warnings issued
    and a record of the calls made to the XGBoost training pipeline. *)

From Stdlib Require Import ZArith QArith Qround List String Bool Lia Lqa.
From Stdlib Require Import Sorting.Sorted Sorting.Permutation.
Import ListNotations.

Local Open Scope Z_scope.

(** ** Exceptions *)

Inductive exn : Type :=
| InvalidImportanceType (kind : string)
    (* raised by [Booster.get_score] for a kind it does not know *)
| ValueError (msg : string)
    (* [range()] with a zero step *)
| IndexError (msg : string)
    (* [np.quantile] of an empty array *)
| ReferenceError (msg : string).
    (* a name bound to no object; never happens for a live Python name *)

(** ** Python builtins *)

Module Py.

(** [len(range(start, stop, step))], as CPython computes it. *)
Definition range_len (start stop step : Z) : Z :=
  if 0 <? step
  then (if start <? stop then (stop - start - 1) / step + 1 else 0)
  else (if stop <? start then (start - stop - 1) / (- step) + 1 else 0).

(** [range(start, stop, step)]: the items [start + i*step]. *)
Definition range (start stop step : Z) : exn + list Z :=
  if step =? 0
  then inl (ValueError "range() arg 3 must not be zero")
  else inr (map (fun i => start + Z.of_nat i * step)
                (seq 0 (Z.to_nat (range_len start stop step)))).

(** The slice [s[:n]]: a negative [n] counts from the end, and the
    bounds are clipped to the sequence. *)
Definition slice_to {A : Type} (n : Z) (s : list A) : list A :=
  if n <? 0
  then firstn (Z.to_nat (Z.of_nat (List.length s) + n)) s
  else firstn (Z.to_nat n) s.

(** [not v] for [v] an [int] or [None]: true on [None] and on [0]. *)
Definition not_int (v : option Z) : bool :=
  match v with
  | None => true
  | Some n => n =? 0
  end.

(** [not l] for a list: true on the empty list. *)
Definition not_list {A : Type} (l : list A) : bool :=
  match l with
  | [] => true
  | _ :: _ => false
  end.

(** Rounding of a rational to the nearest integer, ties to even. *)
Definition rint (x : Q) : Z :=
  let f := Qfloor x in
  match Qcompare (x - inject_Z f) (1 # 2) with
  | Lt => f
  | Gt => f + 1
  | Eq => if Z.even f then f else f + 1
  end.

(** [round(x, ndigits)] on a float: scale, round half to even, unscale. *)
Definition round (x : Q) (ndigits : nat) : Q :=
  let scale := inject_Z (10 ^ Z.of_nat ndigits) in
  (inject_Z (rint (x * scale)) / scale)%Q.

End Py.

(** ** pandas and numpy *)

(** A [Series] of scores indexed by feature name, in index order. *)
Definition Series : Type := list (string * Q).

(** A [DataFrame]: its columns, each a label with its values, in order. *)
Definition DataFrame : Type := list (string * list Q).

(** The label vector [ytrain] / [ytest]. *)
Definition Labels : Type := list Z.

Module Pd.

Definition index (s : Series) : list string := map fst s.

Definition columns (df : DataFrame) : list string := map fst df.

(** [labels.isin(values)] for one label. *)
Definition isin (values : list string) (label : string) : bool :=
  existsb (String.eqb label) values.

(** [df.loc[:, df.columns.isin(values)]]: a new frame with the columns
    of [df] whose label is in [values], in the order of [df]. *)
Definition loc_isin (df : DataFrame) (values : list string) : DataFrame :=
  filter (fun col => isin values (fst col)) df.

(** [s.iloc[:n]]. *)
Definition iloc_to (n : Z) (s : Series) : Series := Py.slice_to n s.

(** Insertion of one entry into a series sorted by descending score;
    the entry goes before the entries it ties with. *)
Fixpoint insert_desc (x : string * Q) (s : Series) : Series :=
  match s with
  | [] => [x]
  | y :: t => if Qle_bool (snd y) (snd x) then x :: y :: t
              else y :: insert_desc x t
  end.

(** [s.sort_values(ascending=False)].  pandas does not fix the order of
    tied entries for its default sort kind; the model keeps them in
    index order. *)
Definition sort_values_desc (s : Series) : Series :=
  fold_right insert_desc [] s.

(** [sum(s <= v)]. *)
Definition count_le (s : Series) (v : Q) : Z :=
  Z.of_nat (List.length (filter (fun x => Qle_bool (snd x) v) s)).

End Pd.

Module Np.

Fixpoint insert_asc (x : Q) (a : list Q) : list Q :=
  match a with
  | [] => [x]
  | y :: t => if Qle_bool x y then x :: y :: t else y :: insert_asc x t
  end.

Definition sort (a : list Q) : list Q := fold_right insert_asc [] a.

(** [np.quantile(a, q)] with the default linear interpolation: the
    value at the virtual index [(len(a) - 1) * q] of the sorted data. *)
Definition quantile (a : list Q) (q : Q) : exn + Q :=
  match sort a with
  | [] => inl (IndexError "index -1 is out of bounds for axis 0 with size 0")
  | (x0 :: _) as s =>
      let h := (inject_Z (Z.of_nat (List.length s) - 1) * q)%Q in
      let i := Qfloor h in
      let g := (h - inject_Z i)%Q in
      let lo := nth (Z.to_nat i) s x0 in
      let hi := nth (Z.to_nat (i + 1)) s (last s x0) in
      inr (lo + (hi - lo) * g)%Q
  end.

End Np.

(** ** The program state and its monad *)

(** A reference to a pandas object: its position in the store. *)
Definition ref : Type := nat.

(** A call of [warnings.warn(message)]; the category is the default one.
    [interpolated] is the value an f-string message formats, if any. *)
Record warning : Type := UserWarning {
  message : string;
  interpolated : option Q
}.

(** One run of the training pipeline, with the data it was given. *)
Record fit_call : Type := FitCall {
  fit_xtrain : DataFrame;
  fit_ytrain : Labels;
  fit_xtest : DataFrame;
  fit_ytest : Labels
}.

Record world : Type := World {
  heap : list DataFrame;     (* the frames alive, by reference *)
  warned : list warning;     (* warnings issued so far, oldest first *)
  fitted : list fit_call     (* pipeline runs so far, oldest first *)
}.

Definition M (A : Type) : Type := world -> (exn + A) * world.

Definition ret {A : Type} (a : A) : M A := fun w => (inr a, w).

Definition raise {A : Type} (e : exn) : M A := fun w => (inl e, w).

Definition bind {A B : Type} (c : M A) (k : A -> M B) : M B :=
  fun w =>
    match c w with
    | (inl e, w') => (inl e, w')
    | (inr a, w') => k a w'
    end.

Definition lift {A : Type} (r : exn + A) : M A :=
  match r with
  | inl e => raise e
  | inr a => ret a
  end.

Declare Scope py_scope.
Delimit Scope py_scope with py.
Notation "x <- c ;; k" := (bind c (fun x => k))
  (at level 61, c at next level, right associativity) : py_scope.
Notation "' p <- c ;; k" := (bind c (fun x => let 'p := x in k))
  (at level 61, p pattern, c at next level, right associativity) : py_scope.
Notation "c ;; k" := (bind c (fun _ => k))
  (at level 61, right associativity) : py_scope.
Local Open Scope py_scope.

(** The object a name is bound to. *)
Definition deref (r : ref) : M DataFrame :=
  fun w =>
    match nth_error (heap w) r with
    | Some df => (inr df, w)
    | None => (inl (ReferenceError "name is not defined"), w)
    end.

(** A new object in the store. *)
Definition alloc (df : DataFrame) : M ref :=
  fun w =>
    (inr (List.length (heap w)),
     World (heap w ++ [df]) (warned w) (fitted w)).

(** [warnings.warn(...)]: recorded, and the run goes on. *)
Definition warn (wn : warning) : M unit :=
  fun w => (inr tt, World (heap w) (warned w ++ [wn]) (fitted w)).

(** [for x in items: locals = body(x, locals)]. *)
Fixpoint for_in {S : Type} (items : list Z) (body : Z -> S -> M S) (s : S)
  : M S :=
  match items with
  | [] => ret s
  | x :: rest => s' <- body x s ;; for_in rest body s'
  end.

(** [frame.loc[:, frame.columns.isin(values)]] on a name: pandas builds a
    new frame and leaves the old one as it is. *)
Definition loc_isin (frame : ref) (values : list string) : M ref :=
  df <- deref frame ;;
  alloc (Pd.loc_isin df values).

(** ** The XGBoost side *)

(** The classifier handed in as [clf], seen through the one method the
    functions call: [clf.get_booster().get_score(importance_type=...)],
    a dict from feature name to score, or an exception. *)
Record XGBClassifier : Type := {
  get_score : string -> exn + list (string * Q)
}.

(** The kinds the docstrings list. *)
Definition importance_types : list string :=
  ["gain"; "weight"; "cover"; "total_gain"; "total_cover"]%string.

(** What xgboost documents of [get_score]: a kind outside
    [importance_types] is refused. *)
Definition rejects_unknown_kinds (clf : XGBClassifier) : Prop :=
  forall kind : string,
    ~ In kind importance_types ->
    get_score clf kind = inl (InvalidImportanceType kind).

(** Defaults of the keyword arguments. *)
Definition default_importance_type : string := "gain".
Definition default_ci : Q := 0.99.
Definition default_steps : Z := 5.
Definition default_span : Z := 5.

Section FeatureSelection.

(** The training pipeline of the loop body, from [xgb.cv] to
    [metrics.auc]: cross-validation for the number of rounds, a fit on
    [xtrain], [ytrain], and the area under the ROC curve on [xtest],
    [ytest].  Seeded, hence a function of the data it is given. *)
Variable xgb_auc : DataFrame -> Labels -> DataFrame -> Labels -> Q.

Definition cv_fit_auc (xtrain : ref) (ytrain : Labels)
                      (xtest : ref) (ytest : Labels) : M Q :=
  Xtrain <- deref xtrain ;;
  Xtest <- deref xtest ;;
  (fun w => (inr tt, World (heap w) (warned w)
                       (fitted w ++ [FitCall Xtrain ytrain Xtest ytest]))) ;;
  ret (xgb_auc Xtrain ytrain Xtest ytest).

(** [pd.DataFrame.from_dict(feature_importance, orient='index',
    columns=['score']).score.sort_values(ascending=False)] after
    [get_score]. *)
Definition feature_importance_ranking (clf : XGBClassifier)
                                      (importance_type : string) : M Series :=
  feature_importance <- lift (get_score clf importance_type) ;;
  ret (Pd.sort_values_desc feature_importance).

(** [z_score = ci - ((1.-ci)/2)]. *)
Definition z_score (ci : Q) : Q := (ci - ((1 - ci) / 2))%Q.

(** [auc >= auc_limit*z_score]. *)
Definition accepts (auc auc_limit z : Q) : bool :=
  Qle_bool (auc_limit * z) auc.

(** [sum(feature_importance_df <= np.quantile(feature_importance_df, q))]. *)
Definition count_le_quantile (feature_importance_df : Series) (q : Q)
  : M Z :=
  v <- lift (Np.quantile (map snd feature_importance_df) q) ;;
  ret (Pd.count_le feature_importance_df v).

(** The [range(...)] of the two broad searches. *)
Definition broad_range (feature_importance_df : Series) (steps : Z)
  : M (list Z) :=
  hi <- count_le_quantile feature_importance_df 0.75 ;;
  lo <- count_le_quantile feature_importance_df 0.25 ;;
  lift (Py.range hi (lo - 1) (- Z.abs steps)).

(** The [range(...)] of the two precise searches. *)
Definition precise_range (start_num_features span : Z) : M (list Z) :=
  lift (Py.range (start_num_features + span)
                 ((start_num_features - span) - 1) (-1)).

(** The loop body from [features_keep = ...] to [auc = metrics.auc(fpr,
    tpr)], the same text in the four functions: [xtrain] and [xtest]
    are rebound to the narrowed frames, which are then fitted and
    scored. *)
Definition fit_top_features (feature_importance_df : Series)
    (num_features : Z) (xtrain xtest : ref) (ytrain ytest : Labels)
  : M (ref * ref * Q) :=
  let features_keep := Pd.iloc_to num_features feature_importance_df in
  xtrain <- loc_isin xtrain (Pd.index features_keep) ;;
  xtest <- loc_isin xtest (Pd.index features_keep) ;;
  auc <- cv_fit_auc xtrain ytrain xtest ytest ;;
  ret (xtrain, xtest, auc).

Definition interpretable_feature_selection
    (clf : XGBClassifier) (auc_limit : Q) (importance_type : string)
    (ci : Q) (steps : Z) (xtrain xtest : ref) (ytrain ytest : Labels)
  : M (list (Q * Z)) :=
  feature_importance_df <- feature_importance_ranking clf importance_type ;;
  let z_score := z_score ci in
  let auc_num_features := [] in
  let org_xtrain := xtrain in
  let org_xtest := xtest in
  candidates <- broad_range feature_importance_df steps ;;
  '(xtrain, xtest, auc_num_features) <-
    for_in candidates
      (fun num_features '(xtrain, xtest, auc_num_features) =>
         '(xtrain, xtest, auc) <-
           fit_top_features feature_importance_df num_features
                            xtrain xtest ytrain ytest ;;
         let auc_num_features :=
           if accepts auc auc_limit z_score
           then auc_num_features ++ [(Py.round auc 4, num_features)]
           else auc_num_features in
         let xtrain := org_xtrain in
         let xtest := org_xtest in
         ret (xtrain, xtest, auc_num_features))
      (xtrain, xtest, auc_num_features) ;;
  (if Py.not_list auc_num_features
   then warn (UserWarning
     "Can’t keep between 75% to 25% of the features and still get an AUC-score of "
     (Some auc_limit))
   else ret tt) ;;
  ret auc_num_features.

Definition interpretable_precise_feature_selection
    (clf : XGBClassifier) (start_num_features : Z) (auc_limit : Q)
    (importance_type : string) (ci : Q) (span : Z)
    (xtrain xtest : ref) (ytrain ytest : Labels)
  : M (list (Q * Z)) :=
  feature_importance_df <- feature_importance_ranking clf importance_type ;;
  let z_score := z_score ci in
  let precise_auc_num_features := [] in
  let org_xtrain := xtrain in
  let org_xtest := xtest in
  candidates <- precise_range start_num_features span ;;
  '(xtrain, xtest, precise_auc_num_features) <-
    for_in candidates
      (fun num_features '(xtrain, xtest, precise_auc_num_features) =>
         '(xtrain, xtest, auc) <-
           fit_top_features feature_importance_df num_features
                            xtrain xtest ytrain ytest ;;
         let precise_auc_num_features :=
           if accepts auc auc_limit z_score
           then precise_auc_num_features ++ [(Py.round auc 4, num_features)]
           else precise_auc_num_features in
         let xtrain := org_xtrain in
         let xtest := org_xtest in
         ret (xtrain, xtest, precise_auc_num_features))
      (xtrain, xtest, precise_auc_num_features) ;;
  (if Py.not_list precise_auc_num_features
   then warn (UserWarning
     "Can’t find as few features to keep at this range and still obtain a high enough auc_limit. Try to change either start_num_features, span, auc_limit and/or ci."
     None)
   else ret tt) ;;
  ret precise_auc_num_features.

Definition automated_feature_selection
    (clf : XGBClassifier) (auc_limit : Q) (importance_type : string)
    (ci : Q) (steps : Z) (xtrain xtest : ref) (ytrain ytest : Labels)
  : M (option Z) :=
  feature_importance_df <- feature_importance_ranking clf importance_type ;;
  let z_score := z_score ci in
  let low_num_features := None in
  let org_xtrain := xtrain in
  let org_xtest := xtest in
  candidates <- broad_range feature_importance_df steps ;;
  '(xtrain, xtest, low_num_features) <-
    for_in candidates
      (fun num_features '(xtrain, xtest, low_num_features) =>
         '(xtrain, xtest, auc) <-
           fit_top_features feature_importance_df num_features
                            xtrain xtest ytrain ytest ;;
         let low_num_features :=
           if accepts auc auc_limit z_score
           then Some num_features
           else low_num_features in
         let xtrain := org_xtrain in
         let xtest := org_xtest in
         ret (xtrain, xtest, low_num_features))
      (xtrain, xtest, low_num_features) ;;
  low_num_features <-
    (if Py.not_int low_num_features
     then
       warn (UserWarning
         "Keeping all features, since the auc_limit (incl confidence interval) was not reached when trying to keep between 75% to 25% of the feature "
         None) ;;
       org <- deref org_xtrain ;;
       ret (Some (Z.of_nat (List.length (Pd.columns org))))
     else ret low_num_features) ;;
  ret low_num_features.

Definition automated_precise_feature_selection
    (clf : XGBClassifier) (start_num_features : Z) (auc_limit : Q)
    (importance_type : string) (ci : Q) (span : Z)
    (xtrain xtest : ref) (ytrain ytest : Labels)
  : M (option Z) :=
  feature_importance_df <- feature_importance_ranking clf importance_type ;;
  let z_score := z_score ci in
  let lowest_num_features := None in
  let org_xtrain := xtrain in
  let org_xtest := xtest in
  candidates <- precise_range start_num_features span ;;
  '(xtrain, xtest, lowest_num_features) <-
    for_in candidates
      (fun num_features '(xtrain, xtest, lowest_num_features) =>
         '(xtrain, xtest, auc) <-
           fit_top_features feature_importance_df num_features
                            xtrain xtest ytrain ytest ;;
         let lowest_num_features :=
           if accepts auc auc_limit z_score
           then Some num_features
           else lowest_num_features in
         let xtrain := org_xtrain in
         let xtest := org_xtest in
         ret (xtrain, xtest, lowest_num_features))
      (xtrain, xtest, lowest_num_features) ;;
  lowest_num_features <-
    (if Py.not_int lowest_num_features
     then
       warn (UserWarning
         "Can’t find as few features to keep at this range and still obtain a high enough auc_limit. Try to change either auc_limit and/or ci."
         None) ;;
       ret (Some start_num_features)
     else ret lowest_num_features) ;;
  ret lowest_num_features.

(** *** The loops, taken apart

    The four loop bodies differ only in what they do with an accepted
    candidate.  [search_body] is that body with the update left open;
    the lemmas [*_unfold] below show each function to be its ranking,
    its range, a [for_in] over [search_body] and its closing test. *)

Definition search_body {R : Type} (update : Z -> Q -> R -> R)
    (feature_importance_df : Series) (org_xtrain org_xtest : ref)
    (ytrain ytest : Labels)
  : Z -> ref * ref * R -> M (ref * ref * R) :=
  fun num_features '(xtrain, xtest, acc) =>
    '(xtrain, xtest, auc) <-
      fit_top_features feature_importance_df num_features
                       xtrain xtest ytrain ytest ;;
    let acc := update num_features auc acc in
    let xtrain := org_xtrain in
    let xtest := org_xtest in
    ret (xtrain, xtest, acc).

(** [if auc >= auc_limit*z_score: acc += [(round(auc,4), num_features)]]. *)
Definition keep_pair (auc_limit z : Q) (num_features : Z) (auc : Q)
    (acc : list (Q * Z)) : list (Q * Z) :=
  if accepts auc auc_limit z
  then acc ++ [(Py.round auc 4, num_features)]
  else acc.

(** [if auc >= auc_limit*z_score: low = num_features]. *)
Definition keep_count (auc_limit z : Q) (num_features : Z) (auc : Q)
    (low : option Z) : option Z :=
  if accepts auc auc_limit z then Some num_features else low.

(** The closing [if not ...: warnings.warn(...)] of the two exploratory
    functions. *)
Definition warn_if_empty (wn : warning) (acc : list (Q * Z))
  : M (list (Q * Z)) :=
  (if Py.not_list acc then warn wn else ret tt) ;;
  ret acc.

(** The closing test of [automated_feature_selection]. *)
Definition keep_all_if_not (org_xtrain : ref) (low_num_features : option Z)
  : M (option Z) :=
  low_num_features <-
    (if Py.not_int low_num_features
     then
       warn (UserWarning
         "Keeping all features, since the auc_limit (incl confidence interval) was not reached when trying to keep between 75% to 25% of the feature "
         None) ;;
       org <- deref org_xtrain ;;
       ret (Some (Z.of_nat (List.length (Pd.columns org))))
     else ret low_num_features) ;;
  ret low_num_features.

(** The closing test of [automated_precise_feature_selection]. *)
Definition keep_start_if_not (start_num_features : Z)
    (lowest_num_features : option Z) : M (option Z) :=
  lowest_num_features <-
    (if Py.not_int lowest_num_features
     then
       warn (UserWarning
         "Can’t find as few features to keep at this range and still obtain a high enough auc_limit. Try to change either auc_limit and/or ci."
         None) ;;
       ret (Some start_num_features)
     else ret lowest_num_features) ;;
  ret lowest_num_features.

(** *** What a run is expected to do

    The vocabulary of the statements below, for a ranking [df] and the
    full frames [Xtrain], [Xtest] the caller passed in. *)

(** The columns of [X] that candidate [n] is fitted on. *)
Definition top_columns (df : Series) (n : Z) (X : DataFrame) : DataFrame :=
  Pd.loc_isin X (Pd.index (Pd.iloc_to n df)).

(** The pipeline run of candidate [n]. *)
Definition fit_of (df : Series) (Xtrain : DataFrame) (ytrain : Labels)
    (Xtest : DataFrame) (ytest : Labels) (n : Z) : fit_call :=
  FitCall (top_columns df n Xtrain) ytrain (top_columns df n Xtest) ytest.

(** The score of candidate [n]. *)
Definition auc_of (df : Series) (Xtrain : DataFrame) (ytrain : Labels)
    (Xtest : DataFrame) (ytest : Labels) (n : Z) : Q :=
  xgb_auc (top_columns df n Xtrain) ytrain (top_columns df n Xtest) ytest.

(** The state after the candidates [l] were fitted from state [w]: two
    new frames and one pipeline run for each. *)
Definition after_fits (df : Series) (Xtrain : DataFrame) (ytrain : Labels)
    (Xtest : DataFrame) (ytest : Labels) (l : list Z) (w : world) : world :=
  World (heap w ++ flat_map (fun n => [top_columns df n Xtrain;
                                       top_columns df n Xtest]) l)
        (warned w)
        (fitted w ++ map (fit_of df Xtrain ytrain Xtest ytest) l).

End FeatureSelection.

(** The candidates in the words of the description: start at [hi], go
    down by [k], stop below [lo]. *)
Fixpoint count_down (fuel : nat) (n lo k : Z) : list Z :=
  match fuel with
  | O => []
  | S fuel' => if n <? lo then [] else n :: count_down fuel' (n - k) lo k
  end.

Definition scan_down (hi lo k : Z) : list Z :=
  count_down (Z.to_nat (hi - lo + 1)) hi lo k.

(** The count an automated loop holds at its end: the last accepted one. *)
Definition last_accepted (pass : Z -> bool) (l : list Z) : option Z :=
  fold_left (fun low n => if pass n then Some n else low) l None.

(** [w'] has every object of [w], unchanged, under the same reference. *)
Definition extends (w w' : world) : Prop :=
  forall (r : ref) (df : DataFrame),
    nth_error (heap w) r = Some df -> nth_error (heap w') r = Some df.

(** The name [r] is bound to the frame [X] in [w]. *)
Definition bound_to (w : world) (r : ref) (X : DataFrame) : Prop :=
  nth_error (heap w) r = Some X.

(** A call is well set: the classifier knows the requested kind and
    answers [fi], and the names [xtrain], [xtest] are bound to the
    caller's frames. *)
Definition call_ok (clf : XGBClassifier) (kind : string)
    (fi : list (string * Q)) (w : world) (xtrain xtest : ref)
    (Xtrain Xtest : DataFrame) : Prop :=
  get_score clf kind = inr fi /\
  bound_to w xtrain Xtrain /\ bound_to w xtest Xtest.

(** [q75] and [q25] are the quartiles of the scores of [df]. *)
Definition quartiles (df : Series) (q75 q25 : Q) : Prop :=
  Np.quantile (map snd df) 0.75 = inr q75 /\
  Np.quantile (map snd df) 0.25 = inr q25.

(** The state [w] with one more warning. *)
Definition with_warning (wn : warning) (w : world) : world :=
  World (heap w) (warned w ++ [wn]) (fitted w).

(** Candidate [n] is accepted, for the scores [score]. *)
Definition accepted (auc_limit ci : Q) (score : Z -> Q) (n : Z) : bool :=
  accepts (score n) auc_limit (z_score ci).

(** The pairs an exploratory loop holds at its end, for the scores
    [score] of the candidates [l]. *)
Definition accepted_pairs (auc_limit ci : Q) (score : Z -> Q) (l : list Z)
  : list (Q * Z) :=
  map (fun n => (Py.round (score n) 4, n))
      (filter (accepted auc_limit ci score) l).

(** The four warnings. *)
Definition broad_interpretable_warning (auc_limit : Q) : warning :=
  UserWarning
    "Can’t keep between 75% to 25% of the features and still get an AUC-score of "
    (Some auc_limit).

Definition precise_interpretable_warning : warning :=
  UserWarning
    "Can’t find as few features to keep at this range and still obtain a high enough auc_limit. Try to change either start_num_features, span, auc_limit and/or ci."
    None.

Definition broad_automated_warning : warning :=
  UserWarning
    "Keeping all features, since the auc_limit (incl confidence interval) was not reached when trying to keep between 75% to 25% of the feature "
    None.

Definition precise_automated_warning : warning :=
  UserWarning
    "Can’t find as few features to keep at this range and still obtain a high enough auc_limit. Try to change either auc_limit and/or ci."
    None.

(** ** Sample data

    A three-feature classifier with a four-column table, and a
    seventy-feature classifier whose quartile counts are 53 and 18, with
    the scores of a run of the notebook. *)

Module Demo.

Definition known (kind : string) : bool :=
  existsb (String.eqb kind) importance_types.

Definition importance3 : list (string * Q) :=
  [("a", 0.5); ("b", 2); ("c", 1)]%string%Q.

Definition clf3 : XGBClassifier :=
  {| get_score := fun kind =>
       if known kind then inr importance3
       else inl (InvalidImportanceType kind) |}.

Definition ranking3 : Series := [("b", 2); ("c", 1); ("a", 0.5)]%string%Q.

Definition Xtrain3 : DataFrame :=
  [("a", [1; 5]); ("b", [2; 6]); ("c", [3; 7]); ("d", [4; 8])]%string%Q.

Definition Xtest3 : DataFrame :=
  [("a", [9]); ("b", [10]); ("c", [11]); ("d", [12])]%string%Q.

Definition ytrain3 : Labels := [0; 1].

Definition ytest3 : Labels := [1].

(** The names [xtrain] and [xtest] of the caller are references 0 and 1. *)
Definition xtrain : ref := 0%nat.
Definition xtest : ref := 1%nat.

Definition w3 : world := World [Xtrain3; Xtest3] [] [].

(** A pipeline whose score grows with the number of training columns. *)
Definition auc_by_width (xtrain : DataFrame) (_ : Labels)
    (_ : DataFrame) (_ : Labels) : Q :=
  ((9 # 10) + inject_Z (Z.of_nat (List.length xtrain)) / 100)%Q.

(** A pipeline with a score that [round(auc, 4)] changes. *)
Definition auc_fine (xtrain : DataFrame) (_ : Labels)
    (_ : DataFrame) (_ : Labels) : Q :=
  ((98765 # 100000) + inject_Z (Z.of_nat (List.length xtrain)) / 100000)%Q.

Definition feature_name (i : nat) : string :=
  String.append "f"
    (String (Ascii.ascii_of_nat (48 + i / 10))
       (String (Ascii.ascii_of_nat (48 + i mod 10)) EmptyString)).

(** Scores 1 to 70 with one tie: the 52nd and the 53rd are both 52. *)
Definition score70 (i : nat) : Q :=
  inject_Z (if (i =? 52)%nat then 52 else Z.of_nat i + 1).

Definition importance70 : list (string * Q) :=
  map (fun i => (feature_name i, score70 i)) (seq 0 70).

Definition clf70 : XGBClassifier :=
  {| get_score := fun kind =>
       if known kind then inr importance70
       else inl (InvalidImportanceType kind) |}.

Definition ranking70 : Series := Pd.sort_values_desc importance70.

Definition Xtrain70 : DataFrame :=
  map (fun i => (feature_name i, [inject_Z (Z.of_nat i)])) (seq 0 70).

Definition Xtest70 : DataFrame :=
  map (fun i => (feature_name i, [inject_Z (Z.of_nat i) + 1]%Q)) (seq 0 70).

Definition w70 : world := World [Xtrain70; Xtest70] [] [].

Definition auc_table : list (Z * Q) :=
  [(53, 0.984%Q); (48, 0.9836%Q); (43, 0.9831%Q); (38, 0.9829%Q);
   (33, 0.9817%Q); (32, 0.9815%Q); (31, 0.9812%Q); (30, 0.981%Q);
   (29, 0.9806%Q); (28, 0.9804%Q); (27, 0.98%Q); (26, 0.9795%Q);
   (25, 0.979%Q); (24, 0.9785%Q); (23, 0.9778%Q); (18, 0.9739%Q)].

Fixpoint lookup (n : Z) (t : list (Z * Q)) : Q :=
  match t with
  | [] => 0.5%Q
  | (m, v) :: t' => if n =? m then v else lookup n t'
  end.

Definition auc70 (xtrain : DataFrame) (_ : Labels)
    (_ : DataFrame) (_ : Labels) : Q :=
  lookup (Z.of_nat (List.length xtrain)) auc_table.

End Demo.

(** ** The cells that read an exploratory result

    [sorted(feature_selection, reverse=True)[-3]] and
    [sorted(precise_feature_selection, reverse=True)[-1]], by which the
    notebook picks the pair to go on with. *)

Module Cell.

(** [p <= q] on [(float, int)] tuples. *)
Definition tuple_le (p q : Q * Z) : bool :=
  match Qcompare (fst p) (fst q) with
  | Lt => true
  | Eq => snd p <=? snd q
  | Gt => false
  end.

(** Insertion into a list sorted from the largest tuple to the smallest;
    the tuple goes before the tuples equal to it. *)
Fixpoint insert_reverse (x : Q * Z) (l : list (Q * Z)) : list (Q * Z) :=
  match l with
  | [] => [x]
  | y :: t => if tuple_le y x then x :: y :: t else y :: insert_reverse x t
  end.

(** [sorted(l, reverse=True)]: from the largest to the smallest, equal
    tuples in the order they had. *)
Definition sorted_reverse (l : list (Q * Z)) : list (Q * Z) :=
  fold_right insert_reverse [] l.

(** [l[-k]] for [k >= 1]. *)
Definition item_from_end {A : Type} (l : list A) (k : nat) : exn + A :=
  if (k <=? List.length l)%nat
  then match nth_error l (List.length l - k) with
       | Some x => inr x
       | None => inl (IndexError "list index out of range")
       end
  else inl (IndexError "list index out of range").

(** [sorted(feature_selection, reverse=True)[-3]]. *)
Definition third_from_end (feature_selection : list (Q * Z))
  : exn + (Q * Z) :=
  item_from_end (sorted_reverse feature_selection) 3.

(** [sorted(precise_feature_selection, reverse=True)[-1]]. *)
Definition last_sorted (precise_feature_selection : list (Q * Z))
  : exn + (Q * Z) :=
  item_from_end (sorted_reverse precise_feature_selection) 1.

End Cell.

(** * Properties *)

(** ** The candidate ranges *)

Section Ranges.

Variables lo k : Z.
Hypothesis k_pos : 0 < k.

Lemma count_down_bounds (fuel : nat) (n x : Z) :
  In x (count_down fuel n lo k) ->
  lo <= x <= n /\ (n - x) mod k = 0.
Proof.
  revert n. induction fuel as [|fuel IH]; intros n; simpl; [tauto|].
  destruct (Z.ltb_spec n lo) as [Hlt|Hge]; simpl; [tauto|].
  intros [<-|Hin].
  - rewrite Z.sub_diag. split; [lia | apply Z.mod_0_l; lia].
  - apply IH in Hin. destruct Hin as [Hb Hm]. split; [lia|].
    replace (n - x) with ((n - k - x) + 1 * k) by lia.
    rewrite Z.mod_add by lia. exact Hm.
Qed.

Lemma count_down_complete (fuel : nat) (n x : Z) :
  n - lo < Z.of_nat fuel ->
  lo <= x <= n -> (n - x) mod k = 0 ->
  In x (count_down fuel n lo k).
Proof.
  revert n. induction fuel as [|fuel IH]; intros n Hfuel Hb Hm; [lia|].
  simpl. destruct (Z.ltb_spec n lo) as [Hlt|Hge]; [lia|].
  destruct (Z.eq_dec x n) as [->|Hne]; [now left|right].
  assert (Hle : x <= n - k).
  { apply Z.mod_divide in Hm; [|lia]. destruct Hm as [c Hc].
    assert (0 < c) by nia. nia. }
  apply IH; [lia|lia|].
  replace (n - k - x) with ((n - x) + (-1) * k) by lia.
  rewrite Z.mod_add by lia. exact Hm.
Qed.

Lemma count_down_descending (fuel : nat) (n : Z) :
  StronglySorted Z.gt (count_down fuel n lo k).
Proof.
  revert n. induction fuel as [|fuel IH]; intros n; simpl; [constructor|].
  destruct (n <? lo); constructor; [apply IH|].
  apply Forall_forall. intros x Hx.
  apply count_down_bounds in Hx. lia.
Qed.

(** The items of a descending [range], one by one. *)
Lemma count_down_as_range (fuel : nat) (n : Z) :
  n - lo < Z.of_nat fuel ->
  count_down fuel n lo k =
  map (fun i => n + Z.of_nat i * (- k))
      (seq 0 (Z.to_nat (Py.range_len n (lo - 1) (- k)))).
Proof.
  revert n. induction fuel as [|fuel IH]; intros n Hfuel.
  - unfold Py.range_len.
    destruct (Z.ltb_spec 0 (- k)); [lia|].
    destruct (Z.ltb_spec (lo - 1) n); [lia|]. reflexivity.
  - simpl. unfold Py.range_len.
    destruct (Z.ltb_spec 0 (- k)) as [|_]; [lia|].
    destruct (Z.ltb_spec n lo) as [Hlt|Hge].
    + destruct (Z.ltb_spec (lo - 1) n); [lia|]. reflexivity.
    + destruct (Z.ltb_spec (lo - 1) n) as [_|]; [|lia].
      rewrite Z.opp_involutive.
      replace (n - (lo - 1) - 1) with (n - lo) by lia.
      assert (Hq : 0 <= (n - lo) / k) by (apply Z.div_pos; lia).
      rewrite Z2Nat.inj_add by lia.
      change (Z.to_nat 1) with 1%nat. rewrite Nat.add_comm.
      cbn [Nat.add seq map].
      f_equal; [lia|].
      rewrite IH by lia.
      rewrite <- seq_shift, map_map.
      unfold Py.range_len.
      destruct (Z.ltb_spec 0 (- k)) as [|_]; [lia|].
      rewrite Z.opp_involutive.
      destruct (Z.ltb_spec (lo - 1) (n - k)) as [Hin|Hout].
      * replace (n - k - (lo - 1) - 1) with ((n - lo) + (-1) * k) by lia.
        rewrite Z.div_add by lia.
        replace ((n - lo) / k + -1 + 1) with ((n - lo) / k) by lia.
        apply map_ext. intros i. lia.
      * rewrite Z.div_small by lia. reflexivity.
Qed.

Lemma range_scan_down (hi : Z) :
  Py.range hi (lo - 1) (- k) = inr (scan_down hi lo k).
Proof.
  unfold Py.range, scan_down.
  destruct (Z.eqb_spec (- k) 0); [lia|].
  rewrite count_down_as_range; [reflexivity|].
  destruct (Z.le_gt_cases lo hi).
  - rewrite Z2Nat.id; lia.
  - lia.
Qed.

Lemma scan_down_In (hi x : Z) :
  In x (scan_down hi lo k) <-> lo <= x <= hi /\ (hi - x) mod k = 0.
Proof.
  unfold scan_down. split.
  - apply count_down_bounds.
  - intros [Hb Hm]. apply count_down_complete; auto.
    rewrite Z2Nat.id; lia.
Qed.

Lemma scan_down_descending (hi : Z) :
  StronglySorted Z.gt (scan_down hi lo k).
Proof. apply count_down_descending. Qed.

End Ranges.

Lemma scan_down_unit_In (hi lo x : Z) :
  In x (scan_down hi lo 1) <-> lo <= x <= hi.
Proof.
  rewrite scan_down_In by lia. rewrite Z.mod_1_r. tauto.
Qed.


(** ** The monad *)

Lemma bind_inr {A B : Type} (c : M A) (k : A -> M B) (w w' : world) (a : A) :
  c w = (inr a, w') -> bind c k w = k a w'.
Proof. intros H. unfold bind. now rewrite H. Qed.

Lemma bind_inl {A B : Type} (c : M A) (k : A -> M B) (w w' : world) (e : exn) :
  c w = (inl e, w') -> bind c k w = (inl e, w').
Proof. intros H. unfold bind. now rewrite H. Qed.

(** ** The store *)

Lemma extends_refl (w : world) : extends w w.
Proof. intros r df H. exact H. Qed.


Lemma extends_heap_app (w w' : world) (l : list DataFrame) :
  heap w' = heap w ++ l -> extends w w'.
Proof.
  intros Hh r df H. unfold extends. rewrite Hh.
  rewrite nth_error_app1; [exact H|].
  apply nth_error_Some. congruence.
Qed.


Lemma bound_to_extends (w w' : world) (r : ref) (X : DataFrame) :
  extends w w' -> bound_to w r X -> bound_to w' r X.
Proof. intros He Hb. apply He, Hb. Qed.

Lemma after_fits_extends (df : Series) (Xtrain : DataFrame) (ytrain : Labels)
    (Xtest : DataFrame) (ytest : Labels) (l : list Z) (w : world) :
  extends w (after_fits df Xtrain ytrain Xtest ytest l w).
Proof. eapply extends_heap_app. reflexivity. Qed.

Lemma after_fits_nil (df : Series) (Xtrain : DataFrame) (ytrain : Labels)
    (Xtest : DataFrame) (ytest : Labels) (w : world) :
  after_fits df Xtrain ytrain Xtest ytest [] w = w.
Proof.
  destruct w. unfold after_fits. simpl. now rewrite !app_nil_r.
Qed.

Lemma after_fits_cons (df : Series) (Xtrain : DataFrame) (ytrain : Labels)
    (Xtest : DataFrame) (ytest : Labels) (n : Z) (l : list Z) (w : world) :
  after_fits df Xtrain ytrain Xtest ytest l
    (after_fits df Xtrain ytrain Xtest ytest [n] w)
  = after_fits df Xtrain ytrain Xtest ytest (n :: l) w.
Proof.
  unfold after_fits. cbn [heap warned fitted flat_map map app].
  now rewrite <- !app_assoc.
Qed.

Lemma bound_to_new (h : list DataFrame) (X : DataFrame)
    (ws : list warning) (fs : list fit_call) :
  bound_to (World (h ++ [X]) ws fs) (List.length h) X.
Proof.
  unfold bound_to. cbn [heap].
  rewrite nth_error_app2 by lia. now rewrite Nat.sub_diag.
Qed.

Lemma deref_run (r : ref) (X : DataFrame) (w : world) :
  bound_to w r X -> deref r w = (inr X, w).
Proof. intros H. unfold deref. now rewrite H. Qed.

Lemma loc_isin_run (r : ref) (X : DataFrame) (values : list string)
    (w : world) :
  bound_to w r X ->
  loc_isin r values w =
  (inr (List.length (heap w)),
   World (heap w ++ [Pd.loc_isin X values]) (warned w) (fitted w)).
Proof.
  intros H. unfold loc_isin.
  erewrite bind_inr by (apply deref_run; exact H). reflexivity.
Qed.

Lemma cv_fit_auc_run
    (xgb_auc : DataFrame -> Labels -> DataFrame -> Labels -> Q)
    (xtrain xtest : ref) (X Y : DataFrame) (ytrain ytest : Labels)
    (w : world) :
  bound_to w xtrain X -> bound_to w xtest Y ->
  cv_fit_auc xgb_auc xtrain ytrain xtest ytest w =
  (inr (xgb_auc X ytrain Y ytest),
   World (heap w) (warned w)
         (fitted w ++ [FitCall X ytrain Y ytest])).
Proof.
  intros HX HY. unfold cv_fit_auc.
  erewrite bind_inr by (apply deref_run; exact HX).
  erewrite bind_inr by (apply deref_run; exact HY).
  reflexivity.
Qed.

(** ** One candidate, and the loop over all of them *)

Section Loop.

Variable xgb_auc : DataFrame -> Labels -> DataFrame -> Labels -> Q.
Variable df : Series.
Variables ytrain ytest : Labels.

(** Narrowing reads the frames the names are bound to at that moment,
    whatever they are, and leaves them in place. *)
Lemma fit_top_features_run (n : Z) (xtrain xtest : ref) (X Y : DataFrame)
    (w : world) :
  bound_to w xtrain X -> bound_to w xtest Y ->
  fit_top_features xgb_auc df n xtrain xtest ytrain ytest w =
  (inr (List.length (heap w), S (List.length (heap w)),
        xgb_auc (top_columns df n X) ytrain (top_columns df n Y) ytest),
   after_fits df X ytrain Y ytest [n] w).
Proof.
  intros HX HY. unfold fit_top_features.
  erewrite bind_inr by (apply loc_isin_run; exact HX).
  erewrite bind_inr
    by (apply loc_isin_run; eapply bound_to_extends; [|exact HY];
        eapply extends_heap_app; reflexivity).
  cbn [heap warned fitted].
  erewrite bind_inr.
  2:{ apply cv_fit_auc_run.
      - eapply bound_to_extends;
          [|apply (bound_to_new (heap w) _ (warned w) (fitted w))].
        eapply extends_heap_app; reflexivity.
      - apply bound_to_new. }
  unfold ret, after_fits, fit_of, top_columns.
  cbn [heap warned fitted flat_map map app]. rewrite <- app_assoc.
  rewrite length_app, Nat.add_comm. reflexivity.
Qed.

Variables Xtrain Xtest : DataFrame.
Variables org_xtrain org_xtest : ref.

Let score : Z -> Q := auc_of xgb_auc df Xtrain ytrain Xtest ytest.

Lemma search_body_run {R : Type} (update : Z -> Q -> R -> R) (n : Z)
    (acc : R) (w : world) :
  bound_to w org_xtrain Xtrain -> bound_to w org_xtest Xtest ->
  search_body xgb_auc update df org_xtrain org_xtest ytrain ytest n
              (org_xtrain, org_xtest, acc) w =
  (inr (org_xtrain, org_xtest, update n (score n) acc),
   after_fits df Xtrain ytrain Xtest ytest [n] w).
Proof.
  intros HX HY. unfold search_body.
  erewrite bind_inr by (apply fit_top_features_run; eassumption).
  reflexivity.
Qed.


Lemma for_in_search {R : Type} (update : Z -> Q -> R -> R) (l : list Z)
    (acc : R) (w : world) :
  bound_to w org_xtrain Xtrain -> bound_to w org_xtest Xtest ->
  for_in l (search_body xgb_auc update df org_xtrain org_xtest ytrain ytest)
         (org_xtrain, org_xtest, acc) w =
  (inr (org_xtrain, org_xtest,
        fold_left (fun a n => update n (score n) a) l acc),
   after_fits df Xtrain ytrain Xtest ytest l w).
Proof.
  revert acc w. induction l as [|n l IH]; intros acc w HX HY.
  - simpl. now rewrite after_fits_nil.
  - cbn [for_in fold_left].
    erewrite bind_inr by (apply search_body_run; assumption).
    rewrite IH.
    + now rewrite after_fits_cons.
    + eapply bound_to_extends; [apply after_fits_extends | exact HX].
    + eapply bound_to_extends; [apply after_fits_extends | exact HY].
Qed.

End Loop.

(** ** What the loops accumulate *)

Lemma fold_keep_pair (auc_limit ci : Q) (score : Z -> Q) (l : list Z)
    (acc : list (Q * Z)) :
  fold_left (fun a n => keep_pair auc_limit (z_score ci) n (score n) a) l acc
  = acc ++ accepted_pairs auc_limit ci score l.
Proof.
  revert acc. induction l as [|n l IH]; intros acc.
  - simpl. now rewrite app_nil_r.
  - cbn [fold_left]. rewrite IH. unfold accepted_pairs, keep_pair.
    cbn [filter]. unfold accepted at 2.
    destruct (accepts (score n) auc_limit (z_score ci)).
    + cbn [map]. now rewrite <- app_assoc.
    + reflexivity.
Qed.

Lemma fold_last_accepted (pass : Z -> bool) (l : list Z) (low : option Z) :
  fold_left (fun a n => if pass n then Some n else a) l low
  = match last_accepted pass l with
    | Some r => Some r
    | None => low
    end.
Proof.
  revert low. unfold last_accepted.
  induction l as [|n l IH]; intros low; [reflexivity|].
  cbn [fold_left]. rewrite IH. rewrite (IH (if pass n then Some n else None)).
  destruct (fold_left _ l None); [reflexivity|].
  now destruct (pass n).
Qed.

Lemma last_accepted_cons (pass : Z -> bool) (n : Z) (l : list Z) :
  last_accepted pass (n :: l)
  = match last_accepted pass l with
    | Some r => Some r
    | None => if pass n then Some n else None
    end.
Proof.
  unfold last_accepted at 1. cbn [fold_left]. apply fold_last_accepted.
Qed.

Lemma fold_keep_count (auc_limit ci : Q) (score : Z -> Q) (l : list Z) :
  fold_left (fun a n => keep_count auc_limit (z_score ci) n (score n) a)
            l None
  = last_accepted (accepted auc_limit ci score) l.
Proof. reflexivity. Qed.

Lemma last_accepted_None (pass : Z -> bool) (l : list Z) :
  last_accepted pass l = None <-> forall n, In n l -> pass n = false.
Proof.
  induction l as [|n l IH]; [now split|].
  rewrite last_accepted_cons.
  destruct (last_accepted pass l) as [r|] eqn:E.
  - split; [discriminate|]. intros H.
    assert (Some r = None) by (apply IH; intros; apply H; now right).
    discriminate.
  - destruct (pass n) eqn:Pn.
    + split; [discriminate|]. intros H. specialize (H n (or_introl eq_refl)).
      congruence.
    + split; [|reflexivity]. intros _ x [<-|Hx]; [exact Pn|].
      now apply IH.
Qed.

Lemma last_accepted_Some (pass : Z -> bool) (l : list Z) (r : Z) :
  last_accepted pass l = Some r -> In r l /\ pass r = true.
Proof.
  induction l as [|n l IH]; [discriminate|].
  rewrite last_accepted_cons.
  destruct (last_accepted pass l) as [r'|] eqn:E.
  - intros [= <-]. destruct (IH eq_refl). split; [now right|assumption].
  - destruct (pass n) eqn:Pn; [|discriminate].
    intros [= <-]. split; [now left|assumption].
Qed.

(** On a descending list the last accepted candidate is the least. *)
Lemma last_accepted_least (pass : Z -> bool) (l : list Z) (r : Z) :
  StronglySorted Z.gt l ->
  last_accepted pass l = Some r ->
  forall n, In n l -> pass n = true -> r <= n.
Proof.
  induction l as [|x l IH]; intros Hs Hr n Hn Pn; [contradiction|].
  inversion Hs as [|? ? Hs' Hall]; subst.
  rewrite last_accepted_cons in Hr.
  destruct (last_accepted pass l) as [r'|] eqn:E.
  - injection Hr as <-. destruct Hn as [<-|Hn].
    + apply last_accepted_Some in E. destruct E as [Hin _].
      rewrite Forall_forall in Hall. specialize (Hall _ Hin). lia.
    + now apply IH.
  - destruct Hn as [<-|Hn].
    + rewrite Pn in Hr. injection Hr as <-. lia.
    + rewrite last_accepted_None in E. rewrite (E n Hn) in Pn. discriminate.
Qed.

(** ** The four functions, step by step *)

Lemma feature_importance_ranking_run (clf : XGBClassifier) (kind : string)
    (fi : list (string * Q)) (w : world) :
  get_score clf kind = inr fi ->
  feature_importance_ranking clf kind w = (inr (Pd.sort_values_desc fi), w).
Proof.
  intros H. unfold feature_importance_ranking, lift. now rewrite H.
Qed.

Lemma feature_importance_ranking_raise (clf : XGBClassifier) (kind : string)
    (e : exn) (w : world) :
  get_score clf kind = inl e ->
  feature_importance_ranking clf kind w = (inl e, w).
Proof.
  intros H. unfold feature_importance_ranking, lift. now rewrite H.
Qed.

Lemma count_le_quantile_run (df : Series) (q v : Q) (w : world) :
  Np.quantile (map snd df) q = inr v ->
  count_le_quantile df q w = (inr (Pd.count_le df v), w).
Proof. intros H. unfold count_le_quantile, lift. now rewrite H. Qed.

Lemma broad_range_run (df : Series) (steps : Z) (q75 q25 : Q) (w : world) :
  Np.quantile (map snd df) 0.75 = inr q75 ->
  Np.quantile (map snd df) 0.25 = inr q25 ->
  steps <> 0 ->
  broad_range df steps w =
  (inr (scan_down (Pd.count_le df q75) (Pd.count_le df q25) (Z.abs steps)),
   w).
Proof.
  intros H75 H25 Hs. unfold broad_range.
  erewrite bind_inr by (apply count_le_quantile_run; exact H75).
  erewrite bind_inr by (apply count_le_quantile_run; exact H25).
  rewrite range_scan_down by lia. reflexivity.
Qed.

Lemma precise_range_run (start_num_features span : Z) (w : world) :
  precise_range start_num_features span w =
  (inr (scan_down (start_num_features + span) (start_num_features - span) 1),
   w).
Proof.
  unfold precise_range.
  change (-1) with (- (1)). rewrite range_scan_down by lia. reflexivity.
Qed.

Section Unfold.

Variable xgb_auc : DataFrame -> Labels -> DataFrame -> Labels -> Q.
Variables (clf : XGBClassifier) (kind : string) (auc_limit ci : Q).
Variables (xtrain xtest : ref) (ytrain ytest : Labels).

Lemma interpretable_feature_selection_unfold (steps : Z) :
  interpretable_feature_selection xgb_auc clf auc_limit kind ci steps
                                  xtrain xtest ytrain ytest
  = (df <- feature_importance_ranking clf kind ;;
     candidates <- broad_range df steps ;;
     '(_, _, acc) <-
       for_in candidates
         (search_body xgb_auc (keep_pair auc_limit (z_score ci)) df
                      xtrain xtest ytrain ytest)
         (xtrain, xtest, []) ;;
     warn_if_empty (broad_interpretable_warning auc_limit) acc).
Proof. reflexivity. Qed.

Lemma interpretable_precise_feature_selection_unfold (start span : Z) :
  interpretable_precise_feature_selection xgb_auc clf start auc_limit kind ci
                                          span xtrain xtest ytrain ytest
  = (df <- feature_importance_ranking clf kind ;;
     candidates <- precise_range start span ;;
     '(_, _, acc) <-
       for_in candidates
         (search_body xgb_auc (keep_pair auc_limit (z_score ci)) df
                      xtrain xtest ytrain ytest)
         (xtrain, xtest, []) ;;
     warn_if_empty precise_interpretable_warning acc).
Proof. reflexivity. Qed.

Lemma automated_feature_selection_unfold (steps : Z) :
  automated_feature_selection xgb_auc clf auc_limit kind ci steps
                              xtrain xtest ytrain ytest
  = (df <- feature_importance_ranking clf kind ;;
     candidates <- broad_range df steps ;;
     '(_, _, low) <-
       for_in candidates
         (search_body xgb_auc (keep_count auc_limit (z_score ci)) df
                      xtrain xtest ytrain ytest)
         (xtrain, xtest, None) ;;
     keep_all_if_not xtrain low).
Proof. reflexivity. Qed.

Lemma automated_precise_feature_selection_unfold (start span : Z) :
  automated_precise_feature_selection xgb_auc clf start auc_limit kind ci
                                      span xtrain xtest ytrain ytest
  = (df <- feature_importance_ranking clf kind ;;
     candidates <- precise_range start span ;;
     '(_, _, low) <-
       for_in candidates
         (search_body xgb_auc (keep_count auc_limit (z_score ci)) df
                      xtrain xtest ytrain ytest)
         (xtrain, xtest, None) ;;
     keep_start_if_not start low).
Proof. reflexivity. Qed.

End Unfold.

Lemma warn_if_empty_run (wn : warning) (acc : list (Q * Z)) (w : world) :
  warn_if_empty wn acc w =
  (inr acc, if Py.not_list acc then with_warning wn w else w).
Proof. unfold warn_if_empty. now destruct acc. Qed.

Lemma keep_all_if_not_run (org_xtrain : ref) (X : DataFrame)
    (low : option Z) (w : world) :
  bound_to w org_xtrain X ->
  keep_all_if_not org_xtrain low w =
  if Py.not_int low
  then (inr (Some (Z.of_nat (List.length (Pd.columns X)))),
        with_warning broad_automated_warning w)
  else (inr low, w).
Proof.
  intros HX. unfold keep_all_if_not.
  destruct (Py.not_int low); [|reflexivity].
  unfold bind at 1. unfold bind at 1. cbn [warn].
  erewrite bind_inr; [reflexivity|].
  apply deref_run. exact HX.
Qed.

Lemma keep_start_if_not_run (start : Z) (low : option Z) (w : world) :
  keep_start_if_not start low w =
  if Py.not_int low
  then (inr (Some start), with_warning precise_automated_warning w)
  else (inr low, w).
Proof. unfold keep_start_if_not. now destruct (Py.not_int low). Qed.

(** ** The four functions, end to end

    For a classifier that knows the requested kind, and frames bound to
    the names handed in. *)

Section Runs.

Variable xgb_auc : DataFrame -> Labels -> DataFrame -> Labels -> Q.
Variables (clf : XGBClassifier) (kind : string) (fi : list (string * Q)).
Hypothesis clf_scores : get_score clf kind = inr fi.

Variables (xtrain xtest : ref) (Xtrain Xtest : DataFrame) (w : world).
Hypothesis xtrain_bound : bound_to w xtrain Xtrain.
Hypothesis xtest_bound : bound_to w xtest Xtest.

Variables (ytrain ytest : Labels) (auc_limit ci : Q).

Let df : Series := Pd.sort_values_desc fi.
Let score : Z -> Q := auc_of xgb_auc df Xtrain ytrain Xtest ytest.
Let fits (l : list Z) : world := after_fits df Xtrain ytrain Xtest ytest l w.

Lemma exploratory_loop_run (l : list Z) :
  for_in l
    (search_body xgb_auc (keep_pair auc_limit (z_score ci)) df
                 xtrain xtest ytrain ytest)
    (xtrain, xtest, []) w
  = (inr (xtrain, xtest, accepted_pairs auc_limit ci score l), fits l).
Proof.
  rewrite (for_in_search xgb_auc df ytrain ytest Xtrain Xtest)
    by assumption.
  now rewrite fold_keep_pair.
Qed.

Lemma automated_loop_run (l : list Z) :
  for_in l
    (search_body xgb_auc (keep_count auc_limit (z_score ci)) df
                 xtrain xtest ytrain ytest)
    (xtrain, xtest, None) w
  = (inr (xtrain, xtest, last_accepted (accepted auc_limit ci score) l),
     fits l).
Proof.
  rewrite (for_in_search xgb_auc df ytrain ytest Xtrain Xtest)
    by assumption.
  now rewrite fold_keep_count.
Qed.

Lemma interpretable_precise_feature_selection_run (start span : Z) :
  let l := scan_down (start + span) (start - span) 1 in
  let pairs := accepted_pairs auc_limit ci score l in
  interpretable_precise_feature_selection xgb_auc clf start auc_limit kind ci
    span xtrain xtest ytrain ytest w
  = (inr pairs,
     if Py.not_list pairs
     then with_warning precise_interpretable_warning (fits l)
     else fits l).
Proof.
  intros l pairs. rewrite interpretable_precise_feature_selection_unfold.
  erewrite bind_inr by (apply feature_importance_ranking_run, clf_scores).
  erewrite bind_inr by apply precise_range_run.
  erewrite bind_inr by apply exploratory_loop_run.
  apply warn_if_empty_run.
Qed.

Lemma automated_precise_feature_selection_run (start span : Z) :
  let l := scan_down (start + span) (start - span) 1 in
  let low := last_accepted (accepted auc_limit ci score) l in
  automated_precise_feature_selection xgb_auc clf start auc_limit kind ci
    span xtrain xtest ytrain ytest w
  = if Py.not_int low
    then (inr (Some start), with_warning precise_automated_warning (fits l))
    else (inr low, fits l).
Proof.
  intros l low. rewrite automated_precise_feature_selection_unfold.
  erewrite bind_inr by (apply feature_importance_ranking_run, clf_scores).
  erewrite bind_inr by apply precise_range_run.
  erewrite bind_inr by apply automated_loop_run.
  apply keep_start_if_not_run.
Qed.

Variables (steps : Z) (q75 q25 : Q).
Hypothesis upper_quartile : Np.quantile (map snd df) 0.75 = inr q75.
Hypothesis lower_quartile : Np.quantile (map snd df) 0.25 = inr q25.
Hypothesis steps_nonzero : steps <> 0.

Lemma interpretable_feature_selection_run :
  let l := scan_down (Pd.count_le df q75) (Pd.count_le df q25)
                     (Z.abs steps) in
  let pairs := accepted_pairs auc_limit ci score l in
  interpretable_feature_selection xgb_auc clf auc_limit kind ci steps
    xtrain xtest ytrain ytest w
  = (inr pairs,
     if Py.not_list pairs
     then with_warning (broad_interpretable_warning auc_limit) (fits l)
     else fits l).
Proof.
  intros l pairs. rewrite interpretable_feature_selection_unfold.
  erewrite bind_inr by (apply feature_importance_ranking_run, clf_scores).
  erewrite bind_inr by (apply broad_range_run; eassumption).
  erewrite bind_inr by apply exploratory_loop_run.
  apply warn_if_empty_run.
Qed.

Lemma automated_feature_selection_run :
  let l := scan_down (Pd.count_le df q75) (Pd.count_le df q25)
                     (Z.abs steps) in
  let low := last_accepted (accepted auc_limit ci score) l in
  automated_feature_selection xgb_auc clf auc_limit kind ci steps
    xtrain xtest ytrain ytest w
  = if Py.not_int low
    then (inr (Some (Z.of_nat (List.length (Pd.columns Xtrain)))),
          with_warning broad_automated_warning (fits l))
    else (inr low, fits l).
Proof.
  intros l low. rewrite automated_feature_selection_unfold.
  erewrite bind_inr by (apply feature_importance_ranking_run, clf_scores).
  erewrite bind_inr by (apply broad_range_run; eassumption).
  erewrite bind_inr by apply automated_loop_run.
  apply keep_all_if_not_run.
  eapply bound_to_extends; [apply after_fits_extends | exact xtrain_bound].
Qed.

End Runs.

(** ** Quantiles and the quartile counts *)

Local Open Scope Q_scope.

Lemma insert_asc_In (x y : Q) (a : list Q) :
  In y (Np.insert_asc x a) <-> y = x \/ In y a.
Proof.
  induction a as [|z a IH]; simpl.
  - intuition.
  - destruct (Qle_bool x z); simpl; [intuition|].
    rewrite IH. intuition.
Qed.

Lemma sort_In (y : Q) (a : list Q) : In y (Np.sort a) <-> In y a.
Proof.
  induction a as [|x a IH]; simpl; [tauto|].
  rewrite insert_asc_In, IH. intuition.
Qed.

Lemma insert_asc_sorted (x : Q) (a : list Q) :
  StronglySorted Qle a -> StronglySorted Qle (Np.insert_asc x a).
Proof.
  induction a as [|z a IH]; intros Hs; simpl.
  - repeat constructor.
  - inversion Hs as [|? ? Hs' Hall]; subst.
    destruct (Qle_bool x z) eqn:E.
    + apply Qle_bool_iff in E. constructor; [exact Hs|].
      constructor; [exact E|].
      eapply Forall_impl; [|exact Hall].
      intros b Hb. eapply Qle_trans; eassumption.
    + assert (Hzx : z <= x).
      { apply Qlt_le_weak, Qnot_le_lt. intros H.
        apply Qle_bool_iff in H. congruence. }
      constructor; [apply IH, Hs'|].
      apply Forall_forall. intros b Hb.
      apply insert_asc_In in Hb. destruct Hb as [->|Hb]; [exact Hzx|].
      rewrite Forall_forall in Hall. now apply Hall.
Qed.

Lemma sort_sorted (a : list Q) : StronglySorted Qle (Np.sort a).
Proof.
  induction a as [|x a IH]; simpl; [constructor|].
  now apply insert_asc_sorted.
Qed.

Lemma sort_nonempty (a : list Q) : a <> [] -> Np.sort a <> [].
Proof.
  destruct a as [|x a]; [congruence|]. intros _ H.
  assert (Hin : In x (Np.sort (x :: a))) by (apply sort_In; now left).
  rewrite H in Hin. contradiction.
Qed.

(** A quantile is defined on every non-empty array. *)
Lemma quantile_defined (a : list Q) (q : Q) :
  a <> [] -> exists v : Q, Np.quantile a q = inr v.
Proof.
  intros Ha. apply sort_nonempty in Ha. unfold Np.quantile.
  destruct (Np.sort a); [congruence|]. eexists. reflexivity.
Qed.

Lemma last_In {A : Type} (x : A) (l : list A) (d : A) : In (last (x :: l) d) (x :: l).
Proof.
  revert x. induction l as [|y l IH]; intros x; [now left|].
  right. apply IH.
Qed.

(** A quantile is not below the least value. *)
Lemma quantile_lower_bound (a : list Q) (q v : Q) :
  0 <= q -> Np.quantile a q = inr v ->
  exists x : Q, In x a /\ x <= v.
Proof.
  intros Hq. unfold Np.quantile.
  pose proof (sort_sorted a) as Hs.
  destruct (Np.sort a) as [|x0 t] eqn:E; [discriminate|].
  intros [= <-]. exists x0. split.
  { apply sort_In. rewrite E. now left. }
  assert (Hmin : forall y, In y (x0 :: t) -> x0 <= y).
  { inversion Hs as [|? ? _ Hall]; subst.
    intros y [<-|Hy]; [apply Qle_refl|].
    rewrite Forall_forall in Hall. now apply Hall. }
  set (s := x0 :: t) in *.
  set (h := inject_Z (Z.of_nat (List.length s) - 1)%Z * q).
  set (g := h - inject_Z (Qfloor h)).
  set (lo := nth (Z.to_nat (Qfloor h)) s x0).
  set (hi := nth (Z.to_nat (Qfloor h + 1)%Z) s (last s x0)).
  assert (Hlo : x0 <= lo).
  { unfold lo. destruct (nth_in_or_default (Z.to_nat (Qfloor h)) s x0) as [H|H].
    - now apply Hmin.
    - rewrite H. apply Qle_refl. }
  assert (Hhi : x0 <= hi).
  { unfold hi.
    destruct (nth_in_or_default (Z.to_nat (Qfloor h + 1)%Z) s (last s x0))
      as [H|H].
    - now apply Hmin.
    - rewrite H. apply Hmin. apply last_In. }
  assert (Hg0 : 0 <= g).
  { unfold g. pose proof (Qfloor_le h). lra. }
  assert (Hg1 : 0 <= 1 - g).
  { unfold g. pose proof (Qlt_floor h) as H.
    rewrite inject_Z_plus in H. change (inject_Z 1) with 1 in H. lra. }
  assert (Hsum : lo + (hi - lo) * g
                 == x0 + ((lo - x0) * (1 - g) + (hi - x0) * g)) by ring.
  change (x0 <= lo + (hi - lo) * g). rewrite Hsum.
  assert (H1 : 0 <= (lo - x0) * (1 - g))
    by (apply Qmult_le_0_compat; [lra | exact Hg1]).
  assert (H2 : 0 <= (hi - x0) * g)
    by (apply Qmult_le_0_compat; [lra | exact Hg0]).
  lra.
Qed.

Local Close Scope Q_scope.

Lemma count_le_bounds (df : Series) (v : Q) :
  0 <= Pd.count_le df v <= Z.of_nat (List.length df).
Proof.
  unfold Pd.count_le. split; [lia|].
  apply inj_le, filter_length_le.
Qed.

Lemma count_le_positive (df : Series) (v x : Q) :
  In x (map snd df) -> (x <= v)%Q -> 1 <= Pd.count_le df v.
Proof.
  intros Hin Hle. apply in_map_iff in Hin. destruct Hin as [[name s] [Hs Hin]].
  simpl in Hs. subst s. unfold Pd.count_le.
  assert (H : In (name, x) (filter (fun y => Qle_bool (snd y) v) df)).
  { apply filter_In. split; [exact Hin|]. now apply Qle_bool_iff. }
  destruct (filter _ df); [contradiction|]. simpl. lia.
Qed.

(** Both quartile counts lie between 1 and the number of ranked features. *)
Lemma quartile_count_bounds (df : Series) (q v : Q) :
  (0 <= q)%Q -> Np.quantile (map snd df) q = inr v ->
  1 <= Pd.count_le df v <= Z.of_nat (List.length df).
Proof.
  intros Hq Hv. split; [|apply count_le_bounds].
  destruct (quantile_lower_bound _ _ _ Hq Hv) as [x [Hin Hle]].
  eapply count_le_positive; eassumption.
Qed.

(** ** Slices of the ranking *)

Lemma slice_to_nonneg {A : Type} (n : Z) (s : list A) :
  0 <= n -> Py.slice_to n s = firstn (Z.to_nat n) s.
Proof.
  intros H. unfold Py.slice_to. destruct (Z.ltb_spec n 0); [lia|reflexivity].
Qed.

Lemma slice_to_negative {A : Type} (n : Z) (s : list A) :
  n < 0 ->
  Py.slice_to n s = firstn (List.length s - Z.to_nat (- n)) s.
Proof.
  intros H. unfold Py.slice_to. destruct (Z.ltb_spec n 0); [|lia].
  f_equal. lia.
Qed.


Lemma loc_isin_columns (X : DataFrame) (values : list string) (c : string) :
  In c (Pd.columns (Pd.loc_isin X values)) <->
  In c (Pd.columns X) /\ In c values.
Proof.
  unfold Pd.columns, Pd.loc_isin, Pd.isin.
  rewrite !in_map_iff. split.
  - intros [col [<- Hin]]. apply filter_In in Hin. destruct Hin as [Hin Hex].
    split; [now exists col|].
    apply existsb_exists in Hex. destruct Hex as [v [Hv Heq]].
    apply String.eqb_eq in Heq. now subst.
  - intros [[col [<- Hin]] Hv]. exists col. split; [reflexivity|].
    apply filter_In. split; [exact Hin|].
    apply existsb_exists. exists (fst col). split; [exact Hv|].
    apply String.eqb_refl.
Qed.

(** ** What a run leaves behind *)

Lemma fitted_with_warning_if (b : bool) (wn : warning) (w : world) :
  fitted (if b then with_warning wn w else w) = fitted w.
Proof. now destruct b. Qed.


Lemma snd_if {A B : Type} (b : bool) (x y : A * B) :
  snd (if b then x else y) = if b then snd x else snd y.
Proof. now destruct b. Qed.


Lemma accepted_pairs_counts (auc_limit ci : Q) (score : Z -> Q)
    (l : list Z) :
  map snd (accepted_pairs auc_limit ci score l)
  = filter (accepted auc_limit ci score) l.
Proof.
  unfold accepted_pairs. rewrite map_map. simpl. apply map_id.
Qed.

Lemma accepted_pairs_In (auc_limit ci : Q) (score : Z -> Q) (l : list Z)
    (s : Q) (n : Z) :
  In (s, n) (accepted_pairs auc_limit ci score l) <->
  In n l /\ accepted auc_limit ci score n = true
  /\ s = Py.round (score n) 4.
Proof.
  unfold accepted_pairs. rewrite in_map_iff. split.
  - intros [m [[= <- <-] Hin]]. apply filter_In in Hin. tauto.
  - intros (Hin & Hacc & ->). exists n. split; [reflexivity|].
    now apply filter_In.
Qed.

Lemma filter_descending (f : Z -> bool) (l : list Z) :
  StronglySorted Z.gt l -> StronglySorted Z.gt (filter f l).
Proof.
  induction 1 as [|x l Hs IH Hall]; simpl; [constructor|].
  destruct (f x); [|exact IH].
  constructor; [exact IH|].
  apply Forall_forall. intros y Hy. apply filter_In in Hy.
  rewrite Forall_forall in Hall. now apply Hall.
Qed.

(** * The acceptance test *)



(** * The candidates scanned *)

(** C3: the two broad searches fit exactly the counts that start at the
    number of features with a score at or below the upper quartile and go
    down by [abs(steps)] for as long as they stay at or above the number
    at or below the lower quartile, in that order. *)
Theorem broad_search_scans_quartile_range
    (xgb_auc : DataFrame -> Labels -> DataFrame -> Labels -> Q)
    (clf : XGBClassifier) (kind : string) (fi : list (string * Q))
    (w : world) (xtrain xtest : ref) (Xtrain Xtest : DataFrame)
    (ytrain ytest : Labels) (auc_limit ci : Q) (steps : Z) (q75 q25 : Q) :
  call_ok clf kind fi w xtrain xtest Xtrain Xtest ->
  let df := Pd.sort_values_desc fi in
  quartiles df q75 q25 ->
  steps <> 0 ->
  let hi := Pd.count_le df q75 in
  let lo := Pd.count_le df q25 in
  let scanned := scan_down hi lo (Z.abs steps) in
  fitted (snd (interpretable_feature_selection xgb_auc clf auc_limit kind ci
                 steps xtrain xtest ytrain ytest w))
  = fitted w ++ map (fit_of df Xtrain ytrain Xtest ytest) scanned
  /\ fitted (snd (automated_feature_selection xgb_auc clf auc_limit kind ci
                    steps xtrain xtest ytrain ytest w))
     = fitted w ++ map (fit_of df Xtrain ytrain Xtest ytest) scanned
  /\ (forall n : Z,
        In n scanned <->
        lo <= n <= hi /\ (hi - n) mod Z.abs steps = 0)
  /\ StronglySorted Z.gt scanned.
Proof.
  intros (Hs & HX & HY) df [H75 H25] Hsteps hi lo scanned.
  assert (Hk : 0 < Z.abs steps) by lia.
  split; [|split; [|split]].
  - rewrite (interpretable_feature_selection_run xgb_auc clf kind fi Hs
               xtrain xtest Xtrain Xtest w HX HY ytrain ytest auc_limit ci
               steps q75 q25 H75 H25 Hsteps).
    cbn [snd]. now rewrite fitted_with_warning_if.
  - rewrite (automated_feature_selection_run xgb_auc clf kind fi Hs
               xtrain xtest Xtrain Xtest w HX HY ytrain ytest auc_limit ci
               steps q75 q25 H75 H25 Hsteps).
    rewrite snd_if. cbn [snd]. now destruct (Py.not_int _).
  - intros n. now apply scan_down_In.
  - now apply scan_down_descending.
Qed.

Lemma broad_search_scans_quartile_range_witness :
  call_ok Demo.clf70 "gain" Demo.importance70 Demo.w70 Demo.xtrain Demo.xtest
          Demo.Xtrain70 Demo.Xtest70
  /\ quartiles Demo.ranking70 52.00 18.25
  /\ 5 <> 0
  /\ Pd.count_le Demo.ranking70 52.00 = 53
  /\ Pd.count_le Demo.ranking70 18.25 = 18
  /\ fitted (snd (interpretable_feature_selection Demo.auc70 Demo.clf70
                    0.975 "gain" 1 5 Demo.xtrain Demo.xtest [] [] Demo.w70))
     = map (fit_of Demo.ranking70 Demo.Xtrain70 [] Demo.Xtest70 [])
           [53; 48; 43; 38; 33; 28; 23; 18]
  /\ fitted (snd (automated_feature_selection Demo.auc70 Demo.clf70
                    0.975 "gain" 1 5 Demo.xtrain Demo.xtest [] [] Demo.w70))
     = map (fit_of Demo.ranking70 Demo.Xtrain70 [] Demo.Xtest70 [])
           [53; 48; 43; 38; 33; 28; 23; 18].
Proof.
  assert (Hok : call_ok Demo.clf70 "gain" Demo.importance70 Demo.w70
                        Demo.xtrain Demo.xtest Demo.Xtrain70 Demo.Xtest70)
    by (split; [|split]; vm_compute; reflexivity).
  assert (Hq : quartiles Demo.ranking70 52.00 18.25)
    by (split; vm_compute; reflexivity).
  assert (Hs : 5 <> 0) by lia.
  destruct (broad_search_scans_quartile_range Demo.auc70 Demo.clf70 "gain"
              Demo.importance70 Demo.w70 Demo.xtrain Demo.xtest
              Demo.Xtrain70 Demo.Xtest70
              [] [] 0.975 1 5 52.00 18.25 Hok Hq Hs) as (H1 & H2 & _).
  split; [exact Hok|]. split; [exact Hq|]. split; [exact Hs|].
  split; [vm_compute; reflexivity|]. split; [vm_compute; reflexivity|].
  split.
  - rewrite H1. vm_compute. reflexivity.
  - rewrite H2. vm_compute. reflexivity.
Defined.



(** * The results *)

(** C5: when no scanned candidate is accepted, the automated broad search
    returns the number of columns of the training table, the automated
    precise search returns [start_num_features], and the two exploratory
    searches return the empty list; each of them returns normally, having
    issued one [UserWarning] after the fits. *)
Theorem no_acceptance_falls_back
    (xgb_auc : DataFrame -> Labels -> DataFrame -> Labels -> Q)
    (clf : XGBClassifier) (kind : string) (fi : list (string * Q))
    (w : world) (xtrain xtest : ref) (Xtrain Xtest : DataFrame)
    (ytrain ytest : Labels) (auc_limit ci : Q)
    (steps : Z) (q75 q25 : Q) (start span : Z) :
  call_ok clf kind fi w xtrain xtest Xtrain Xtest ->
  let df := Pd.sort_values_desc fi in
  let score := auc_of xgb_auc df Xtrain ytrain Xtest ytest in
  let fits := fun l => after_fits df Xtrain ytrain Xtest ytest l w in
  (quartiles df q75 q25 ->
   steps <> 0 ->
   let broad := scan_down (Pd.count_le df q75) (Pd.count_le df q25)
                          (Z.abs steps) in
   (forall n : Z, In n broad -> accepted auc_limit ci score n = false) ->
   automated_feature_selection xgb_auc clf auc_limit kind ci steps
     xtrain xtest ytrain ytest w
   = (inr (Some (Z.of_nat (List.length (Pd.columns Xtrain)))),
      with_warning broad_automated_warning (fits broad))
   /\ interpretable_feature_selection xgb_auc clf auc_limit kind ci steps
        xtrain xtest ytrain ytest w
      = (inr [],
         with_warning (broad_interpretable_warning auc_limit) (fits broad)))
  /\
  (let precise := scan_down (start + span) (start - span) 1 in
   (forall n : Z, In n precise -> accepted auc_limit ci score n = false) ->
   automated_precise_feature_selection xgb_auc clf start auc_limit kind ci
     span xtrain xtest ytrain ytest w
   = (inr (Some start),
      with_warning precise_automated_warning (fits precise))
   /\ interpretable_precise_feature_selection xgb_auc clf start auc_limit
        kind ci span xtrain xtest ytrain ytest w
      = (inr [],
         with_warning precise_interpretable_warning (fits precise))).
Proof.
  intros (Hs & HX & HY) df score fits.
  assert (Hnone : forall l : list Z,
            (forall n, In n l -> accepted auc_limit ci score n = false) ->
            last_accepted (accepted auc_limit ci score) l = None
            /\ accepted_pairs auc_limit ci score l = []).
  { intros l Hl. split; [now apply last_accepted_None|].
    unfold accepted_pairs.
    replace (filter (accepted auc_limit ci score) l) with (@nil Z);
      [reflexivity|].
    symmetry. induction l as [|n l IH]; [reflexivity|].
    simpl. rewrite (Hl n (or_introl eq_refl)). apply IH.
    intros m Hm. apply Hl. now right. }
  split.
  - intros [H75 H25] Hsteps broad Hfail.
    destruct (Hnone broad Hfail) as [Hlow Hpairs].
    rewrite (automated_feature_selection_run xgb_auc clf kind fi Hs
               xtrain xtest Xtrain Xtest w HX HY ytrain ytest auc_limit ci
               steps q75 q25 H75 H25 Hsteps).
    rewrite (interpretable_feature_selection_run xgb_auc clf kind fi Hs
               xtrain xtest Xtrain Xtest w HX HY ytrain ytest auc_limit ci
               steps q75 q25 H75 H25 Hsteps).
    fold df score broad. rewrite Hlow, Hpairs. split; reflexivity.
  - intros precise Hfail.
    destruct (Hnone precise Hfail) as [Hlow Hpairs].
    rewrite (automated_precise_feature_selection_run xgb_auc clf kind fi Hs
               xtrain xtest Xtrain Xtest w HX HY ytrain ytest auc_limit ci
               start span).
    rewrite (interpretable_precise_feature_selection_run xgb_auc clf kind fi
               Hs xtrain xtest Xtrain Xtest w HX HY ytrain ytest auc_limit
               ci start span).
    fold df score precise. rewrite Hlow, Hpairs. split; reflexivity.
Qed.

Lemma no_acceptance_falls_back_witness :
  call_ok Demo.clf3 "gain" Demo.importance3 Demo.w3 Demo.xtrain Demo.xtest
          Demo.Xtrain3 Demo.Xtest3
  /\ quartiles Demo.ranking3 1.50 0.7500
  /\ 1 <> 0
  /\ fst (automated_feature_selection Demo.auc_by_width Demo.clf3 2 "gain"
            1 1 Demo.xtrain Demo.xtest Demo.ytrain3 Demo.ytest3 Demo.w3)
     = inr (Some 4)
  /\ fst (automated_precise_feature_selection Demo.auc_by_width Demo.clf3
            2 2 "gain" 1 1 Demo.xtrain Demo.xtest Demo.ytrain3 Demo.ytest3
            Demo.w3)
     = inr (Some 2).
Proof.
  assert (Hok : call_ok Demo.clf3 "gain" Demo.importance3 Demo.w3
                        Demo.xtrain Demo.xtest Demo.Xtrain3 Demo.Xtest3)
    by (split; [|split]; vm_compute; reflexivity).
  assert (Hq : quartiles Demo.ranking3 1.50 0.7500)
    by (split; vm_compute; reflexivity).
  assert (Hs : 1 <> 0) by lia.
  destruct (no_acceptance_falls_back Demo.auc_by_width Demo.clf3 "gain"
              Demo.importance3 Demo.w3 Demo.xtrain Demo.xtest
              Demo.Xtrain3 Demo.Xtest3 Demo.ytrain3 Demo.ytest3
              2 1 1 1.50 0.7500 2 1 Hok) as [Hb Hp].
  split; [exact Hok|]. split; [exact Hq|]. split; [exact Hs|]. split.
  - destruct (Hb Hq Hs) as [H _].
    + intros n Hn. vm_compute in Hn.
      destruct Hn as [<-|[<-|[]]]; vm_compute; reflexivity.
    + rewrite H. reflexivity.
  - destruct Hp as [H _].
    + intros n Hn. vm_compute in Hn.
      destruct Hn as [<-|[<-|[<-|[]]]]; vm_compute; reflexivity.
    + rewrite H. reflexivity.
Defined.

(** C6, as the code has it: an exploratory search returns, for the
    accepted candidates in the order they were scanned, the pair of the
    score rounded to four decimals and the count; the counts are strictly
    descending. *)
Theorem exploratory_search_returns_rounded_pairs
    (xgb_auc : DataFrame -> Labels -> DataFrame -> Labels -> Q)
    (clf : XGBClassifier) (kind : string) (fi : list (string * Q))
    (w : world) (xtrain xtest : ref) (Xtrain Xtest : DataFrame)
    (ytrain ytest : Labels) (auc_limit ci : Q)
    (steps : Z) (q75 q25 : Q) (start span : Z) :
  call_ok clf kind fi w xtrain xtest Xtrain Xtest ->
  let df := Pd.sort_values_desc fi in
  let score := auc_of xgb_auc df Xtrain ytrain Xtest ytest in
  let pairs_of := fun l =>
    map (fun n => (Py.round (score n) 4, n))
        (filter (fun n => accepts (score n) auc_limit (z_score ci)) l) in
  (quartiles df q75 q25 ->
   steps <> 0 ->
   let broad := scan_down (Pd.count_le df q75) (Pd.count_le df q25)
                          (Z.abs steps) in
   fst (interpretable_feature_selection xgb_auc clf auc_limit kind ci steps
          xtrain xtest ytrain ytest w)
   = inr (pairs_of broad)
   /\ StronglySorted Z.gt (map snd (pairs_of broad)))
  /\
  (let precise := scan_down (start + span) (start - span) 1 in
   fst (interpretable_precise_feature_selection xgb_auc clf start auc_limit
          kind ci span xtrain xtest ytrain ytest w)
   = inr (pairs_of precise)
   /\ StronglySorted Z.gt (map snd (pairs_of precise))).
Proof.
  intros (Hs & HX & HY) df score pairs_of.
  assert (Hsorted : forall l, StronglySorted Z.gt l ->
                      StronglySorted Z.gt (map snd (pairs_of l))).
  { intros l Hl. unfold pairs_of. rewrite map_map. simpl. rewrite map_id.
    now apply filter_descending. }
  split.
  - intros [H75 H25] Hsteps broad.
    rewrite (interpretable_feature_selection_run xgb_auc clf kind fi Hs
               xtrain xtest Xtrain Xtest w HX HY ytrain ytest auc_limit ci
               steps q75 q25 H75 H25 Hsteps).
    split; [reflexivity|]. apply Hsorted, scan_down_descending. lia.
  - intros precise.
    rewrite (interpretable_precise_feature_selection_run xgb_auc clf kind fi
               Hs xtrain xtest Xtrain Xtest w HX HY ytrain ytest auc_limit
               ci start span).
    split; [reflexivity|]. apply Hsorted, scan_down_descending. lia.
Qed.

Lemma exploratory_search_returns_rounded_pairs_witness :
  call_ok Demo.clf70 "gain" Demo.importance70 Demo.w70
          Demo.xtrain Demo.xtest Demo.Xtrain70 Demo.Xtest70
  /\ quartiles Demo.ranking70 52.00 18.25
  /\ 5 <> 0
  /\ fst (interpretable_feature_selection Demo.auc70 Demo.clf70 0.975 "gain"
            1 5 Demo.xtrain Demo.xtest [] [] Demo.w70)
     = inr [(0.9840%Q, 53); (0.9836%Q, 48); (0.9831%Q, 43); (0.9829%Q, 38);
            (0.9817%Q, 33); (0.9804%Q, 28); (0.9778%Q, 23)].
Proof.
  assert (Hok : call_ok Demo.clf70 "gain" Demo.importance70 Demo.w70
                        Demo.xtrain Demo.xtest Demo.Xtrain70 Demo.Xtest70)
    by (split; [|split]; vm_compute; reflexivity).
  assert (Hq : quartiles Demo.ranking70 52.00 18.25)
    by (split; vm_compute; reflexivity).
  assert (Hs : 5 <> 0) by lia.
  destruct (exploratory_search_returns_rounded_pairs Demo.auc70 Demo.clf70
              "gain" Demo.importance70 Demo.w70 Demo.xtrain Demo.xtest
              Demo.Xtrain70 Demo.Xtest70 [] [] 0.975 1 5 52.00 18.25 28 5
              Hok) as [Hb _].
  destruct (Hb Hq Hs) as [H _].
  split; [exact Hok|]. split; [exact Hq|]. split; [exact Hs|].
  rewrite H. vm_compute. reflexivity.
Defined.

(** C6, as stated, fails: the score in a returned pair is [round(auc, 4)],
    not the score the candidate was accepted with.  Here the only
    candidate, count 1, is accepted with the score 0.98766 and comes back
    with 0.9877. *)
Lemma exploratory_pair_is_not_the_score :
  let score := auc_of Demo.auc_fine Demo.ranking3 Demo.Xtrain3 Demo.ytrain3
                      Demo.Xtest3 Demo.ytest3 in
  fst (interpretable_precise_feature_selection Demo.auc_fine Demo.clf3 1 0.5
         "gain" 1 0 Demo.xtrain Demo.xtest Demo.ytrain3 Demo.ytest3 Demo.w3)
  = inr [(0.9877%Q, 1)]
  /\ accepts (score 1) 0.5 (z_score 1) = true
  /\ (score 1%Z == 0.98766)%Q
  /\ ~ (0.9877 == score 1%Z)%Q
  /\ fst (interpretable_precise_feature_selection Demo.auc_fine Demo.clf3 1
            0.5 "gain" 1 0 Demo.xtrain Demo.xtest Demo.ytrain3 Demo.ytest3
            Demo.w3)
     <> inr (map (fun n => (score n, n))
                 (filter (fun n => accepts (score n) 0.5 (z_score 1))
                         (scan_down (1 + 0) (1 - 0) 1))).
Proof.
  intros score.
  split; [vm_compute; reflexivity|].
  split; [vm_compute; reflexivity|].
  split; [vm_compute; reflexivity|].
  split; [vm_compute; discriminate|].
  vm_compute. discriminate.
Qed.

(** * The counts and the columns they are fitted on *)




(** * An importance kind the classifier does not know *)

Lemma demo_clf3_rejects_unknown_kinds : rejects_unknown_kinds Demo.clf3.
Proof.
  intros kind Hkind. unfold get_score, Demo.clf3, Demo.known.
  destruct (existsb (String.eqb kind) importance_types) eqn:E;
    [|reflexivity].
  apply existsb_exists in E. destruct E as [k [Hk He]].
  apply String.eqb_eq in He. subst k. contradiction.
Qed.

(** C8: with a classifier that refuses the kinds outside gain, weight,
    cover, total_gain and total_cover, each of the four functions called
    with such a kind raises that error to its caller, before anything is
    fitted, warned about or allocated; and ranking the features changes
    nothing in the state, whatever the kind. *)
Theorem unknown_importance_type_is_raised
    (xgb_auc : DataFrame -> Labels -> DataFrame -> Labels -> Q)
    (clf : XGBClassifier) (kind : string) (auc_limit ci : Q)
    (steps start span : Z) (xtrain xtest : ref) (ytrain ytest : Labels)
    (w : world) :
  rejects_unknown_kinds clf ->
  ~ In kind importance_types ->
  interpretable_feature_selection xgb_auc clf auc_limit kind ci steps
    xtrain xtest ytrain ytest w
  = (inl (InvalidImportanceType kind), w)
  /\ interpretable_precise_feature_selection xgb_auc clf start auc_limit
       kind ci span xtrain xtest ytrain ytest w
     = (inl (InvalidImportanceType kind), w)
  /\ automated_feature_selection xgb_auc clf auc_limit kind ci steps
       xtrain xtest ytrain ytest w
     = (inl (InvalidImportanceType kind), w)
  /\ automated_precise_feature_selection xgb_auc clf start auc_limit
       kind ci span xtrain xtest ytrain ytest w
     = (inl (InvalidImportanceType kind), w)
  /\ (forall (kind' : string) (w' : world),
        snd (feature_importance_ranking clf kind' w') = w').
Proof.
  intros Hclf Hkind. specialize (Hclf kind Hkind).
  split; [|split; [|split; [|split]]].
  - rewrite interpretable_feature_selection_unfold.
    now erewrite bind_inl by (apply feature_importance_ranking_raise, Hclf).
  - rewrite interpretable_precise_feature_selection_unfold.
    now erewrite bind_inl by (apply feature_importance_ranking_raise, Hclf).
  - rewrite automated_feature_selection_unfold.
    now erewrite bind_inl by (apply feature_importance_ranking_raise, Hclf).
  - rewrite automated_precise_feature_selection_unfold.
    now erewrite bind_inl by (apply feature_importance_ranking_raise, Hclf).
  - intros kind' w'. unfold feature_importance_ranking, bind, lift.
    now destruct (get_score clf kind').
Qed.

Lemma unknown_importance_type_is_raised_witness :
  rejects_unknown_kinds Demo.clf3
  /\ ~ In "gini"%string importance_types
  /\ automated_feature_selection Demo.auc_by_width Demo.clf3 0.9 "gini" 1 5
       Demo.xtrain Demo.xtest Demo.ytrain3 Demo.ytest3 Demo.w3
     = (inl (InvalidImportanceType "gini"), Demo.w3).
Proof.
  assert (Hk : ~ In "gini"%string importance_types).
  { simpl. intros H.
    repeat (destruct H as [H|H]; [discriminate H|]). exact H. }
  split; [exact demo_clf3_rejects_unknown_kinds|]. split; [exact Hk|].
  apply (unknown_importance_type_is_raised Demo.auc_by_width Demo.clf3
           "gini" 0.9 1 5 1 1 Demo.xtrain Demo.xtest Demo.ytrain3
           Demo.ytest3 Demo.w3 demo_clf3_rejects_unknown_kinds Hk).
Defined.

(** * The caller's tables *)



(** * The count zero *)



(** * The smallest accepted count *)


(** * Further properties of the four functions *)

(** ** What the automated searches return *)

Lemma last_map_Some (m : Z) (t : list Z) :
  exists r : Z, last (map Some (m :: t)) None = Some r.
Proof.
  revert m. induction t as [|x t IH]; intros m.
  - exists m. reflexivity.
  - destruct (IH x) as [r Hr]. exists r. exact Hr.
Qed.

Lemma last_accepted_filter (pass : Z -> bool) (l : list Z) :
  last_accepted pass l = last (map Some (filter pass l)) None.
Proof.
  induction l as [|n l IH]; [reflexivity|].
  rewrite last_accepted_cons, IH. cbn [filter].
  destruct (pass n).
  - destruct (filter pass l) as [|m t]; [reflexivity|].
    destruct (last_map_Some m t) as [r Hr].
    change (last (map Some (n :: m :: t)) None)
      with (last (map Some (m :: t)) None).
    now rewrite Hr.
  - now destruct (last (map Some (filter pass l)) None).
Qed.

Lemma scan_down_empty (hi lo k : Z) : hi < lo -> scan_down hi lo k = [].
Proof.
  intros H. unfold scan_down.
  replace (Z.to_nat (hi - lo + 1)) with 0%nat by lia. reflexivity.
Qed.

Lemma scan_down_head (hi lo k : Z) :
  lo <= hi -> exists rest : list Z, scan_down hi lo k = hi :: rest.
Proof.
  intros H. unfold scan_down.
  destruct (Z.to_nat (hi - lo + 1)) as [|fuel] eqn:E; [lia|].
  simpl. destruct (Z.ltb_spec hi lo); [lia|]. eexists. reflexivity.
Qed.

(** Whenever a broad automated search accepts a candidate it returns,
    without a warning, the least accepted count among those it
    scanned. *)
Theorem automated_broad_returns_least_accepted
    (xgb_auc : DataFrame -> Labels -> DataFrame -> Labels -> Q)
    (clf : XGBClassifier) (kind : string) (fi : list (string * Q))
    (w : world) (xtrain xtest : ref) (Xtrain Xtest : DataFrame)
    (ytrain ytest : Labels) (auc_limit ci : Q) (steps : Z) (q75 q25 : Q) :
  call_ok clf kind fi w xtrain xtest Xtrain Xtest ->
  let df := Pd.sort_values_desc fi in
  let score := auc_of xgb_auc df Xtrain ytrain Xtest ytest in
  quartiles df q75 q25 ->
  steps <> 0 ->
  let broad := scan_down (Pd.count_le df q75) (Pd.count_le df q25)
                         (Z.abs steps) in
  (exists n : Z, In n broad /\ accepted auc_limit ci score n = true) ->
  exists r : Z,
    automated_feature_selection xgb_auc clf auc_limit kind ci steps
      xtrain xtest ytrain ytest w
    = (inr (Some r), after_fits df Xtrain ytrain Xtest ytest broad w)
    /\ In r broad
    /\ accepted auc_limit ci score r = true
    /\ (forall n : Z, In n broad -> accepted auc_limit ci score n = true ->
          r <= n).
Proof.
  intros (Hs & HX & HY) df score [H75 H25] Hsteps broad [n [Hn Hacc]].
  rewrite (automated_feature_selection_run xgb_auc clf kind fi Hs
             xtrain xtest Xtrain Xtest w HX HY ytrain ytest auc_limit ci
             steps q75 q25 H75 H25 Hsteps).
  fold df score broad.
  destruct (last_accepted (accepted auc_limit ci score) broad) as [r|] eqn:E.
  - pose proof (last_accepted_Some _ _ _ E) as [Hr Hracc].
    assert (Hpos : 1 <= r).
    { apply scan_down_In in Hr; [|lia].
      assert (1 <= Pd.count_le df q25)
        by (eapply quartile_count_bounds; [|exact H25]; discriminate).
      lia. }
    exists r. cbn [Py.not_int]. destruct (Z.eqb_spec r 0); [lia|].
    split; [reflexivity|]. split; [exact Hr|]. split; [exact Hracc|].
    apply last_accepted_least; [|exact E].
    apply scan_down_descending. lia.
  - rewrite last_accepted_None in E. rewrite (E n Hn) in Hacc. discriminate.
Qed.

Lemma automated_broad_returns_least_accepted_witness :
  call_ok Demo.clf70 "gain" Demo.importance70 Demo.w70
          Demo.xtrain Demo.xtest Demo.Xtrain70 Demo.Xtest70
  /\ quartiles Demo.ranking70 52.00 18.25
  /\ 5 <> 0
  /\ accepted 0.975 1
       (auc_of Demo.auc70 Demo.ranking70 Demo.Xtrain70 [] Demo.Xtest70 [])
       23 = true
  /\ fst (automated_feature_selection Demo.auc70 Demo.clf70 0.975 "gain" 1 5
            Demo.xtrain Demo.xtest [] [] Demo.w70)
     = inr (Some 23).
Proof.
  assert (Hok : call_ok Demo.clf70 "gain" Demo.importance70 Demo.w70
                        Demo.xtrain Demo.xtest Demo.Xtrain70 Demo.Xtest70)
    by (split; [|split]; vm_compute; reflexivity).
  assert (Hq : quartiles Demo.ranking70 52.00 18.25)
    by (split; vm_compute; reflexivity).
  assert (Hs : 5 <> 0) by lia.
  assert (Hacc : accepted 0.975 1
                   (auc_of Demo.auc70 Demo.ranking70 Demo.Xtrain70 []
                           Demo.Xtest70 []) 23 = true)
    by (vm_compute; reflexivity).
  destruct (automated_broad_returns_least_accepted Demo.auc70 Demo.clf70
              "gain" Demo.importance70 Demo.w70 Demo.xtrain Demo.xtest
              Demo.Xtrain70 Demo.Xtest70 [] [] 0.975 1 5 52.00 18.25
              Hok Hq Hs) as [r [Hrun _]].
  { exists 23. split; [vm_compute; tauto | exact Hacc]. }
  split; [exact Hok|]. split; [exact Hq|]. split; [exact Hs|].
  split; [exact Hacc|]. vm_compute. reflexivity.
Defined.



(** An automated search that returns, returns an integer, never [None]:
    the fallback fills the place of a count that was not found. *)
Theorem automated_search_returns_an_integer
    (xgb_auc : DataFrame -> Labels -> DataFrame -> Labels -> Q)
    (clf : XGBClassifier) (kind : string) (fi : list (string * Q))
    (w : world) (xtrain xtest : ref) (Xtrain Xtest : DataFrame)
    (ytrain ytest : Labels) (auc_limit ci : Q)
    (steps : Z) (q75 q25 : Q) (start span : Z) :
  call_ok clf kind fi w xtrain xtest Xtrain Xtest ->
  (exists r : Z,
     fst (automated_precise_feature_selection xgb_auc clf start auc_limit
            kind ci span xtrain xtest ytrain ytest w)
     = inr (Some r))
  /\ (quartiles (Pd.sort_values_desc fi) q75 q25 ->
      steps <> 0 ->
      exists r : Z,
        fst (automated_feature_selection xgb_auc clf auc_limit kind ci steps
               xtrain xtest ytrain ytest w)
        = inr (Some r)).
Proof.
  intros (Hs & HX & HY). split.
  - rewrite (automated_precise_feature_selection_run xgb_auc clf kind fi Hs
               xtrain xtest Xtrain Xtest w HX HY ytrain ytest auc_limit ci
               start span).
    destruct (last_accepted _ _) as [r|]; cbn [Py.not_int].
    + destruct (r =? 0); eexists; reflexivity.
    + eexists; reflexivity.
  - intros [H75 H25] Hsteps.
    rewrite (automated_feature_selection_run xgb_auc clf kind fi Hs
               xtrain xtest Xtrain Xtest w HX HY ytrain ytest auc_limit ci
               steps q75 q25 H75 H25 Hsteps).
    destruct (last_accepted _ _) as [r|]; cbn [Py.not_int].
    + destruct (r =? 0); eexists; reflexivity.
    + eexists; reflexivity.
Qed.

Lemma automated_search_returns_an_integer_witness :
  call_ok Demo.clf3 "gain" Demo.importance3 Demo.w3 Demo.xtrain Demo.xtest
          Demo.Xtrain3 Demo.Xtest3
  /\ quartiles Demo.ranking3 1.50 0.7500
  /\ 1 <> 0
  /\ exists r : Z,
       fst (automated_feature_selection Demo.auc_by_width Demo.clf3 0.9
              "gain" 1 1 Demo.xtrain Demo.xtest Demo.ytrain3 Demo.ytest3
              Demo.w3)
       = inr (Some r).
Proof.
  assert (Hok : call_ok Demo.clf3 "gain" Demo.importance3 Demo.w3
                        Demo.xtrain Demo.xtest Demo.Xtrain3 Demo.Xtest3)
    by (split; [|split]; vm_compute; reflexivity).
  assert (Hq : quartiles Demo.ranking3 1.50 0.7500)
    by (split; vm_compute; reflexivity).
  assert (Hs : 1 <> 0) by lia.
  split; [exact Hok|]. split; [exact Hq|]. split; [exact Hs|].
  apply (automated_search_returns_an_integer Demo.auc_by_width Demo.clf3
           "gain" Demo.importance3 Demo.w3 Demo.xtrain Demo.xtest
           Demo.Xtrain3 Demo.Xtest3 Demo.ytrain3 Demo.ytest3 0.9 1 1
           1.50 0.7500 1 1 Hok); [exact Hq | exact Hs].
Defined.

(** On the same call the automated search returns the count of the last
    pair of the exploratory search, when there is one and its count is
    not 0. *)
Theorem automated_is_last_exploratory_pair
    (xgb_auc : DataFrame -> Labels -> DataFrame -> Labels -> Q)
    (clf : XGBClassifier) (kind : string) (fi : list (string * Q))
    (w : world) (xtrain xtest : ref) (Xtrain Xtest : DataFrame)
    (ytrain ytest : Labels) (auc_limit ci : Q)
    (steps : Z) (q75 q25 : Q) (start span : Z) :
  call_ok clf kind fi w xtrain xtest Xtrain Xtest ->
  (forall (pairs : list (Q * Z)) (s : Q) (n : Z),
     fst (interpretable_precise_feature_selection xgb_auc clf start
            auc_limit kind ci span xtrain xtest ytrain ytest w)
     = inr (pairs ++ [(s, n)]) ->
     n <> 0 ->
     fst (automated_precise_feature_selection xgb_auc clf start auc_limit
            kind ci span xtrain xtest ytrain ytest w)
     = inr (Some n))
  /\ (quartiles (Pd.sort_values_desc fi) q75 q25 ->
      steps <> 0 ->
      forall (pairs : list (Q * Z)) (s : Q) (n : Z),
        fst (interpretable_feature_selection xgb_auc clf auc_limit kind ci
               steps xtrain xtest ytrain ytest w)
        = inr (pairs ++ [(s, n)]) ->
        fst (automated_feature_selection xgb_auc clf auc_limit kind ci
               steps xtrain xtest ytrain ytest w)
        = inr (Some n)).
Proof.
  intros (Hs & HX & HY).
  assert (Hlast : forall (score : Z -> Q) (l : list Z)
                         (pairs : list (Q * Z)) (s : Q) (n : Z),
            accepted_pairs auc_limit ci score l = pairs ++ [(s, n)] ->
            last_accepted (accepted auc_limit ci score) l = Some n).
  { intros score l pairs s n H.
    rewrite last_accepted_filter, <- accepted_pairs_counts, H.
    rewrite !map_app. cbn [map snd]. apply last_last. }
  split.
  - intros pairs s n Hrun Hn. revert Hrun.
    rewrite (interpretable_precise_feature_selection_run xgb_auc clf kind fi
               Hs xtrain xtest Xtrain Xtest w HX HY ytrain ytest auc_limit
               ci start span).
    rewrite (automated_precise_feature_selection_run xgb_auc clf kind fi Hs
               xtrain xtest Xtrain Xtest w HX HY ytrain ytest auc_limit ci
               start span).
    cbn [fst]. intros [= Hp]. rewrite (Hlast _ _ _ _ _ Hp).
    cbn [Py.not_int]. destruct (Z.eqb_spec n 0); [contradiction|].
    reflexivity.
  - intros [H75 H25] Hsteps pairs s n Hrun. revert Hrun.
    rewrite (interpretable_feature_selection_run xgb_auc clf kind fi Hs
               xtrain xtest Xtrain Xtest w HX HY ytrain ytest auc_limit ci
               steps q75 q25 H75 H25 Hsteps).
    rewrite (automated_feature_selection_run xgb_auc clf kind fi Hs
               xtrain xtest Xtrain Xtest w HX HY ytrain ytest auc_limit ci
               steps q75 q25 H75 H25 Hsteps).
    cbn [fst]. intros [= Hp].
    assert (Hin : In (s, n) (accepted_pairs auc_limit ci
                     (auc_of xgb_auc (Pd.sort_values_desc fi) Xtrain ytrain
                             Xtest ytest)
                     (scan_down (Pd.count_le (Pd.sort_values_desc fi) q75)
                                (Pd.count_le (Pd.sort_values_desc fi) q25)
                                (Z.abs steps))))
      by (rewrite Hp; apply in_or_app; right; now left).
    apply accepted_pairs_In in Hin. destruct Hin as [Hin _].
    apply scan_down_In in Hin; [|lia].
    assert (1 <= Pd.count_le (Pd.sort_values_desc fi) q25)
      by (eapply quartile_count_bounds; [|exact H25]; discriminate).
    rewrite (Hlast _ _ _ _ _ Hp). cbn [Py.not_int].
    destruct (Z.eqb_spec n 0); [lia|]. reflexivity.
Qed.

Lemma automated_is_last_exploratory_pair_witness :
  call_ok Demo.clf70 "gain" Demo.importance70 Demo.w70
          Demo.xtrain Demo.xtest Demo.Xtrain70 Demo.Xtest70
  /\ fst (interpretable_precise_feature_selection Demo.auc70 Demo.clf70 28
            0.98 "gain" 1 5 Demo.xtrain Demo.xtest [] [] Demo.w70)
     = inr ([(0.9817%Q, 33); (0.9815%Q, 32); (0.9812%Q, 31); (0.9810%Q, 30);
             (0.9806%Q, 29); (0.9804%Q, 28)] ++ [(0.9800%Q, 27)])
  /\ 27 <> 0
  /\ fst (automated_precise_feature_selection Demo.auc70 Demo.clf70 28
            0.98 "gain" 1 5 Demo.xtrain Demo.xtest [] [] Demo.w70)
     = inr (Some 27).
Proof.
  assert (Hok : call_ok Demo.clf70 "gain" Demo.importance70 Demo.w70
                        Demo.xtrain Demo.xtest Demo.Xtrain70 Demo.Xtest70)
    by (split; [|split]; vm_compute; reflexivity).
  assert (Hrun : fst (interpretable_precise_feature_selection Demo.auc70
                        Demo.clf70 28 0.98 "gain" 1 5 Demo.xtrain Demo.xtest
                        [] [] Demo.w70)
                 = inr ([(0.9817%Q, 33); (0.9815%Q, 32); (0.9812%Q, 31);
                         (0.9810%Q, 30); (0.9806%Q, 29); (0.9804%Q, 28)]
                        ++ [(0.9800%Q, 27)]))
    by (vm_compute; reflexivity).
  assert (Hn : 27 <> 0) by lia.
  destruct (automated_is_last_exploratory_pair Demo.auc70 Demo.clf70 "gain"
              Demo.importance70 Demo.w70 Demo.xtrain Demo.xtest
              Demo.Xtrain70 Demo.Xtest70 [] [] 0.98 1 5 52.00 18.25 28 5
              Hok) as [Hp _].
  split; [exact Hok|]. split; [exact Hrun|]. split; [exact Hn|].
  exact (Hp _ _ _ Hrun Hn).
Defined.

(** ** Steps and span at their edges *)

Lemma bind_ext {A B : Type} (c : M A) (k1 k2 : A -> M B) (w : world) :
  (forall a w', k1 a w' = k2 a w') -> bind c k1 w = bind c k2 w.
Proof.
  intros H. unfold bind. destruct (c w) as [[e|a] w']; [reflexivity|apply H].
Qed.

(** [steps = 0] makes [range] raise [ValueError], after the ranking and
    the quartiles and before anything is fitted: the state is as it
    was. *)
Theorem zero_steps_raises_value_error
    (xgb_auc : DataFrame -> Labels -> DataFrame -> Labels -> Q)
    (clf : XGBClassifier) (kind : string) (fi : list (string * Q))
    (w : world) (xtrain xtest : ref) (ytrain ytest : Labels)
    (auc_limit ci : Q) (q75 q25 : Q) :
  get_score clf kind = inr fi ->
  quartiles (Pd.sort_values_desc fi) q75 q25 ->
  interpretable_feature_selection xgb_auc clf auc_limit kind ci 0
    xtrain xtest ytrain ytest w
  = (inl (ValueError "range() arg 3 must not be zero"), w)
  /\ automated_feature_selection xgb_auc clf auc_limit kind ci 0
       xtrain xtest ytrain ytest w
     = (inl (ValueError "range() arg 3 must not be zero"), w).
Proof.
  intros Hs [H75 H25].
  assert (Hrange : broad_range (Pd.sort_values_desc fi) 0 w
                   = (inl (ValueError "range() arg 3 must not be zero"), w)).
  { unfold broad_range.
    erewrite bind_inr by (apply count_le_quantile_run; exact H75).
    erewrite bind_inr by (apply count_le_quantile_run; exact H25).
    reflexivity. }
  split.
  - rewrite interpretable_feature_selection_unfold.
    erewrite bind_inr by (apply feature_importance_ranking_run, Hs).
    now erewrite bind_inl by exact Hrange.
  - rewrite automated_feature_selection_unfold.
    erewrite bind_inr by (apply feature_importance_ranking_run, Hs).
    now erewrite bind_inl by exact Hrange.
Qed.

Lemma zero_steps_raises_value_error_witness :
  get_score Demo.clf3 "gain" = inr Demo.importance3
  /\ quartiles Demo.ranking3 1.50 0.7500
  /\ automated_feature_selection Demo.auc_by_width Demo.clf3 0.9 "gain" 1 0
       Demo.xtrain Demo.xtest Demo.ytrain3 Demo.ytest3 Demo.w3
     = (inl (ValueError "range() arg 3 must not be zero"), Demo.w3).
Proof.
  assert (Hs : get_score Demo.clf3 "gain" = inr Demo.importance3)
    by (vm_compute; reflexivity).
  assert (Hq : quartiles Demo.ranking3 1.50 0.7500)
    by (split; vm_compute; reflexivity).
  split; [exact Hs|]. split; [exact Hq|].
  apply (zero_steps_raises_value_error Demo.auc_by_width Demo.clf3 "gain"
           Demo.importance3 Demo.w3 Demo.xtrain Demo.xtest Demo.ytrain3
           Demo.ytest3 0.9 1 1.50 0.7500 Hs Hq).
Defined.

(** Only the size of [steps] counts: a broad search with [-steps] is the
    search with [steps]. *)
Theorem steps_sign_is_ignored
    (xgb_auc : DataFrame -> Labels -> DataFrame -> Labels -> Q)
    (clf : XGBClassifier) (kind : string) (auc_limit ci : Q) (steps : Z)
    (xtrain xtest : ref) (ytrain ytest : Labels) (w : world) :
  interpretable_feature_selection xgb_auc clf auc_limit kind ci (- steps)
    xtrain xtest ytrain ytest w
  = interpretable_feature_selection xgb_auc clf auc_limit kind ci steps
      xtrain xtest ytrain ytest w
  /\ automated_feature_selection xgb_auc clf auc_limit kind ci (- steps)
       xtrain xtest ytrain ytest w
     = automated_feature_selection xgb_auc clf auc_limit kind ci steps
         xtrain xtest ytrain ytest w.
Proof.
  assert (H : forall df, broad_range df (- steps) = broad_range df steps)
    by (intros df; unfold broad_range; now rewrite Z.abs_opp).
  split.
  - rewrite !interpretable_feature_selection_unfold.
    apply bind_ext. intros df w'. now rewrite H.
  - rewrite !automated_feature_selection_unfold.
    apply bind_ext. intros df w'. now rewrite H.
Qed.

(** A negative [span] leaves the precise searches nothing to scan: they
    fit nothing, warn, and return the empty list and
    [start_num_features]. *)
Theorem negative_span_scans_nothing
    (xgb_auc : DataFrame -> Labels -> DataFrame -> Labels -> Q)
    (clf : XGBClassifier) (kind : string) (fi : list (string * Q))
    (w : world) (xtrain xtest : ref) (ytrain ytest : Labels)
    (auc_limit ci : Q) (start span : Z) :
  get_score clf kind = inr fi ->
  span < 0 ->
  interpretable_precise_feature_selection xgb_auc clf start auc_limit kind
    ci span xtrain xtest ytrain ytest w
  = (inr [], with_warning precise_interpretable_warning w)
  /\ automated_precise_feature_selection xgb_auc clf start auc_limit kind
       ci span xtrain xtest ytrain ytest w
     = (inr (Some start), with_warning precise_automated_warning w).
Proof.
  intros Hs Hspan.
  assert (Hrange : precise_range start span w = (inr [], w)).
  { rewrite precise_range_run. now rewrite scan_down_empty by lia. }
  split.
  - rewrite interpretable_precise_feature_selection_unfold.
    erewrite bind_inr by (apply feature_importance_ranking_run, Hs).
    erewrite bind_inr by exact Hrange. reflexivity.
  - rewrite automated_precise_feature_selection_unfold.
    erewrite bind_inr by (apply feature_importance_ranking_run, Hs).
    erewrite bind_inr by exact Hrange. reflexivity.
Qed.

Lemma negative_span_scans_nothing_witness :
  get_score Demo.clf3 "gain" = inr Demo.importance3
  /\ -1 < 0
  /\ automated_precise_feature_selection Demo.auc_by_width Demo.clf3 2 0.9
       "gain" 1 (-1) Demo.xtrain Demo.xtest Demo.ytrain3 Demo.ytest3 Demo.w3
     = (inr (Some 2), with_warning precise_automated_warning Demo.w3).
Proof.
  assert (Hs : get_score Demo.clf3 "gain" = inr Demo.importance3)
    by (vm_compute; reflexivity).
  assert (Hn : -1 < 0) by lia.
  split; [exact Hs|]. split; [exact Hn|].
  apply (negative_span_scans_nothing Demo.auc_by_width Demo.clf3 "gain"
           Demo.importance3 Demo.w3 Demo.xtrain Demo.xtest Demo.ytrain3
           Demo.ytest3 0.9 1 2 (-1) Hs Hn).
Defined.

(** ** Warnings *)



(** ** The broad search followed by the precise one *)




(** ** The broad range is never empty *)

Local Open Scope Q_scope.

Lemma sorted_nth_le (s : list Q) (d : Q) (i j : nat) :
  StronglySorted Qle s -> (i <= j)%nat -> (j < List.length s)%nat ->
  nth i s d <= nth j s d.
Proof.
  intros Hs. revert i j. induction Hs as [|x s Hs IH Hall]; intros i j Hij Hj.
  - simpl in Hj. lia.
  - destruct i as [|i], j as [|j]; simpl in *.
    + apply Qle_refl.
    + rewrite Forall_forall in Hall. apply Hall, nth_In. lia.
    + lia.
    + apply IH; lia.
Qed.

Lemma last_as_nth (s : list Q) (d : Q) :
  s <> [] -> last s d = nth (List.length s - 1) s d.
Proof.
  induction s as [|x s IH]; [congruence|]. intros _.
  destruct s as [|y s]; [reflexivity|].
  change (last (x :: y :: s) d) with (last (y :: s) d).
  rewrite IH by discriminate. simpl. now rewrite Nat.sub_0_r.
Qed.

(** The sorted data read at a position, the last item past the end. *)
Lemma sorted_at_le (s : list Q) (d : Q) (i j : nat) :
  StronglySorted Qle s -> s <> [] -> (i <= j)%nat ->
  nth i s (last s d) <= nth j s (last s d).
Proof.
  intros Hs Hne Hij.
  destruct (Nat.lt_ge_cases j (List.length s)) as [Hj|Hj].
  - now apply sorted_nth_le.
  - rewrite (nth_overflow s (last s d) Hj).
    destruct (Nat.lt_ge_cases i (List.length s)) as [Hi|Hi].
    + rewrite (last_as_nth s d Hne) at 2.
      rewrite (nth_indep s (last s d) d Hi).
      apply sorted_nth_le; [exact Hs|lia|].
      destruct s; [congruence|simpl; lia].
    + rewrite (nth_overflow s (last s d) Hi). apply Qle_refl.
Qed.

(** Linear interpolation stays between its two ends. *)
Lemma lerp_bounds (lo hi g : Q) :
  lo <= hi -> 0 <= g -> g <= 1 ->
  lo <= lo + (hi - lo) * g /\ lo + (hi - lo) * g <= hi.
Proof.
  intros Hlh Hg0 Hg1.
  assert (H1 : 0 <= (hi - lo) * g)
    by (apply Qmult_le_0_compat; lra).
  assert (H2 : 0 <= (hi - lo) * (1 - g))
    by (apply Qmult_le_0_compat; lra).
  assert (E : hi - (lo + (hi - lo) * g) == (hi - lo) * (1 - g)) by ring.
  split; lra.
Qed.

(** A quantile does not fall when its level rises. *)
Lemma quantile_monotone (a : list Q) (q1 q2 v1 v2 : Q) :
  0 <= q1 -> q1 <= q2 -> q2 <= 1 ->
  Np.quantile a q1 = inr v1 -> Np.quantile a q2 = inr v2 ->
  v1 <= v2.
Proof.
  intros H0 H12 H1. unfold Np.quantile.
  pose proof (sort_sorted a) as Hs.
  destruct (Np.sort a) as [|x0 t] eqn:E; [discriminate|].
  set (s := x0 :: t) in *.
  assert (Hne : s <> []) by discriminate.
  set (n1 := inject_Z (Z.of_nat (List.length s) - 1)%Z).
  assert (Hn1 : 0 <= n1).
  { unfold n1, Qle. cbn [inject_Z Qnum Qden]. unfold s.
    cbn [List.length]. lia. }
  assert (Hfloor : forall q, 0 <= q -> q <= 1 ->
            (0 <= Qfloor (n1 * q) <= Z.of_nat (List.length s) - 1)%Z
            /\ 0 <= n1 * q - inject_Z (Qfloor (n1 * q))
            /\ n1 * q - inject_Z (Qfloor (n1 * q)) <= 1).
  { intros q Hq0 Hq1.
    assert (Hh0 : 0 <= n1 * q) by (apply Qmult_le_0_compat; assumption).
    assert (Hh1 : 0 <= n1 * (1 - q)) by (apply Qmult_le_0_compat; lra).
    assert (Hh1' : n1 * q <= n1)
      by (assert (n1 * (1 - q) == n1 - n1 * q) by ring; lra).
    split; [split|].
    - change 0%Z with (Qfloor 0). now apply Qfloor_resp_le.
    - rewrite <- (Qfloor_Z (Z.of_nat (List.length s) - 1)).
      now apply Qfloor_resp_le.
    - pose proof (Qfloor_le (n1 * q)).
      pose proof (Qlt_floor (n1 * q)) as Hlt.
      rewrite inject_Z_plus in Hlt. change (inject_Z 1) with 1 in Hlt.
      split; lra. }
  assert (Hval : forall q, 0 <= q -> q <= 1 ->
            let i := Z.to_nat (Qfloor (n1 * q)) in
            nth (Z.to_nat (Qfloor (n1 * q))) s x0
            + (nth (Z.to_nat (Qfloor (n1 * q) + 1)%Z) s (last s x0)
               - nth (Z.to_nat (Qfloor (n1 * q))) s x0)
              * (n1 * q - inject_Z (Qfloor (n1 * q)))
            = nth i s (last s x0)
              + (nth (S i) s (last s x0) - nth i s (last s x0))
                * (n1 * q - inject_Z (Qfloor (n1 * q)))).
  { intros q Hq0 Hq1 i. destruct (Hfloor q Hq0 Hq1) as [[Hi0 Hi1] _].
    replace (Z.to_nat (Qfloor (n1 * q) + 1)%Z) with (S i)
      by (unfold i; lia).
    fold i. rewrite (nth_indep s x0 (last s x0)) by (unfold i; lia).
    reflexivity. }
  intros [= <-] [= <-].
  change (nth (Z.to_nat (Qfloor (n1 * q1))) s x0
          + (nth (Z.to_nat (Qfloor (n1 * q1) + 1)%Z) s (last s x0)
             - nth (Z.to_nat (Qfloor (n1 * q1))) s x0)
            * (n1 * q1 - inject_Z (Qfloor (n1 * q1)))
          <= nth (Z.to_nat (Qfloor (n1 * q2))) s x0
             + (nth (Z.to_nat (Qfloor (n1 * q2) + 1)%Z) s (last s x0)
                - nth (Z.to_nat (Qfloor (n1 * q2))) s x0)
               * (n1 * q2 - inject_Z (Qfloor (n1 * q2)))).
  rewrite (Hval q1) by lra. rewrite (Hval q2) by lra. cbv zeta.
  destruct (Hfloor q1) as [[Ha0 Ha1] [Hg1a Hg1b]]; [lra|lra|].
  destruct (Hfloor q2) as [[Hb0 Hb1] [Hg2a Hg2b]]; [lra|lra|].
  assert (Hh : n1 * q1 <= n1 * q2).
  { assert (0 <= n1 * (q2 - q1)) by (apply Qmult_le_0_compat; lra).
    assert (n1 * (q2 - q1) == n1 * q2 - n1 * q1) by ring. lra. }
  assert (Hfl : (Qfloor (n1 * q1) <= Qfloor (n1 * q2))%Z)
    by now apply Qfloor_resp_le.
  set (i1 := Z.to_nat (Qfloor (n1 * q1))).
  set (i2 := Z.to_nat (Qfloor (n1 * q2))).
  set (g1 := n1 * q1 - inject_Z (Qfloor (n1 * q1))) in *.
  set (g2 := n1 * q2 - inject_Z (Qfloor (n1 * q2))) in *.
  pose proof (sorted_at_le s x0 i1 (S i1) Hs Hne (Nat.le_succ_diag_r i1))
    as Hstep1.
  pose proof (sorted_at_le s x0 i2 (S i2) Hs Hne (Nat.le_succ_diag_r i2))
    as Hstep2.
  destruct (Z.eq_dec (Qfloor (n1 * q1)) (Qfloor (n1 * q2))) as [Heq|Hneq].
  - assert (Hi : i1 = i2) by (unfold i1, i2; now rewrite Heq).
    assert (Hg : g1 <= g2) by (unfold g1, g2; rewrite Heq; lra).
    rewrite <- Hi.
    set (lo := nth i1 s (last s x0)) in *.
    set (hi := nth (S i1) s (last s x0)) in *.
    assert (0 <= (hi - lo) * (g2 - g1))
      by (apply Qmult_le_0_compat; lra).
    assert ((hi - lo) * (g2 - g1) == (hi - lo) * g2 - (hi - lo) * g1)
      by ring.
    lra.
  - assert (Hlt : (S i1 <= i2)%nat) by (unfold i1, i2; lia).
    pose proof (sorted_at_le s x0 (S i1) i2 Hs Hne Hlt) as Hmid.
    destruct (lerp_bounds _ _ g1 Hstep1 Hg1a Hg1b) as [_ Hup].
    destruct (lerp_bounds _ _ g2 Hstep2 Hg2a Hg2b) as [Hdown _].
    lra.
Qed.

Local Close Scope Q_scope.

Lemma filter_length_le_impl {A : Type} (f g : A -> bool) (l : list A) :
  (forall x, f x = true -> g x = true) ->
  (List.length (filter f l) <= List.length (filter g l))%nat.
Proof.
  intros H. induction l as [|x l IH]; [reflexivity|].
  simpl. destruct (f x) eqn:Ef.
  - rewrite (H x Ef). simpl. lia.
  - destruct (g x); simpl; lia.
Qed.

Lemma count_le_monotone (df : Series) (v1 v2 : Q) :
  (v1 <= v2)%Q -> Pd.count_le df v1 <= Pd.count_le df v2.
Proof.
  intros H. unfold Pd.count_le. apply inj_le, filter_length_le_impl.
  intros x Hx. apply Qle_bool_iff. apply Qle_bool_iff in Hx.
  eapply Qle_trans; eassumption.
Qed.

(** The lower quartile count is at least 1 and at most the upper one,
    which is at most the number of ranked features; so a broad search
    always has a first candidate, the upper quartile count, whatever the
    step. *)
Theorem broad_search_fits_a_candidate
    (xgb_auc : DataFrame -> Labels -> DataFrame -> Labels -> Q)
    (clf : XGBClassifier) (kind : string) (fi : list (string * Q))
    (w : world) (xtrain xtest : ref) (Xtrain Xtest : DataFrame)
    (ytrain ytest : Labels) (auc_limit ci : Q) (steps : Z) (q75 q25 : Q) :
  call_ok clf kind fi w xtrain xtest Xtrain Xtest ->
  let df := Pd.sort_values_desc fi in
  quartiles df q75 q25 ->
  steps <> 0 ->
  let hi := Pd.count_le df q75 in
  let lo := Pd.count_le df q25 in
  1 <= lo <= hi
  /\ hi <= Z.of_nat (List.length df)
  /\ exists rest : list Z,
       scan_down hi lo (Z.abs steps) = hi :: rest
       /\ fitted (snd (interpretable_feature_selection xgb_auc clf auc_limit
                         kind ci steps xtrain xtest ytrain ytest w))
          = fitted w
            ++ map (fit_of df Xtrain ytrain Xtest ytest) (hi :: rest)
       /\ fitted (snd (automated_feature_selection xgb_auc clf auc_limit
                         kind ci steps xtrain xtest ytrain ytest w))
          = fitted w
            ++ map (fit_of df Xtrain ytrain Xtest ytest) (hi :: rest).
Proof.
  intros (Hs & HX & HY) df [H75 H25] Hsteps hi lo.
  assert (Hlo : 1 <= lo)
    by (eapply quartile_count_bounds; [|exact H25]; discriminate).
  assert (Hle : lo <= hi).
  { apply count_le_monotone.
    eapply (quantile_monotone _ 0.25 0.75); try eassumption; discriminate. }
  split; [lia|]. split; [apply count_le_bounds|].
  destruct (scan_down_head hi lo (Z.abs steps) Hle) as [rest Hrest].
  exists rest. split; [exact Hrest|]. rewrite <- Hrest. split.
  - rewrite (interpretable_feature_selection_run xgb_auc clf kind fi Hs
               xtrain xtest Xtrain Xtest w HX HY ytrain ytest auc_limit ci
               steps q75 q25 H75 H25 Hsteps).
    cbn [snd]. now rewrite fitted_with_warning_if.
  - rewrite (automated_feature_selection_run xgb_auc clf kind fi Hs
               xtrain xtest Xtrain Xtest w HX HY ytrain ytest auc_limit ci
               steps q75 q25 H75 H25 Hsteps).
    rewrite snd_if. cbn [snd]. now destruct (Py.not_int _).
Qed.

Lemma broad_search_fits_a_candidate_witness :
  call_ok Demo.clf3 "gain" Demo.importance3 Demo.w3 Demo.xtrain Demo.xtest
          Demo.Xtrain3 Demo.Xtest3
  /\ quartiles Demo.ranking3 1.50 0.7500
  /\ 7 <> 0
  /\ 1 <= Pd.count_le Demo.ranking3 0.7500 <= Pd.count_le Demo.ranking3 1.50
  /\ List.length
       (fitted (snd (automated_feature_selection Demo.auc_by_width Demo.clf3
                       0.9 "gain" 1 7 Demo.xtrain Demo.xtest Demo.ytrain3
                       Demo.ytest3 Demo.w3)))
     = 1%nat.
Proof.
  assert (Hok : call_ok Demo.clf3 "gain" Demo.importance3 Demo.w3
                        Demo.xtrain Demo.xtest Demo.Xtrain3 Demo.Xtest3)
    by (split; [|split]; vm_compute; reflexivity).
  assert (Hq : quartiles Demo.ranking3 1.50 0.7500)
    by (split; vm_compute; reflexivity).
  assert (Hs : 7 <> 0) by lia.
  destruct (broad_search_fits_a_candidate Demo.auc_by_width Demo.clf3 "gain"
              Demo.importance3 Demo.w3 Demo.xtrain Demo.xtest
              Demo.Xtrain3 Demo.Xtest3 Demo.ytrain3 Demo.ytest3 0.9 1 7
              1.50 0.7500 Hok Hq Hs) as (Hb & _).
  split; [exact Hok|]. split; [exact Hq|]. split; [exact Hs|].
  split; [exact Hb|]. vm_compute. reflexivity.
Defined.

(** ** The scores in the pairs *)

Local Open Scope Q_scope.

Lemma rint_error (y : Q) :
  - (1 # 2) <= inject_Z (Py.rint y) - y /\ inject_Z (Py.rint y) - y <= 1 # 2.
Proof.
  unfold Py.rint.
  pose proof (Qfloor_le y) as Hlo.
  pose proof (Qlt_floor y) as Hhi.
  rewrite inject_Z_plus in Hhi. change (inject_Z 1) with 1 in Hhi.
  destruct (Qcompare (y - inject_Z (Qfloor y)) (1 # 2)) eqn:E.
  - apply Qeq_alt in E.
    destruct (Z.even (Qfloor y)).
    + split; lra.
    + rewrite inject_Z_plus. change (inject_Z 1) with 1. split; lra.
  - apply Qlt_alt in E. split; lra.
  - apply Qgt_alt in E. rewrite inject_Z_plus. change (inject_Z 1) with 1.
    split; lra.
Qed.

(** [round(x, 4)] is within half a unit of the fourth decimal of [x]. *)
Lemma round4_error (x : Q) :
  x - (1 # 20000) <= Py.round x 4 /\ Py.round x 4 <= x + (1 # 20000).
Proof.
  unfold Py.round. change (inject_Z (10 ^ Z.of_nat 4)) with (10000 # 1).
  destruct (rint_error (x * (10000 # 1))) as [H1 H2].
  set (r := inject_Z (Py.rint (x * (10000 # 1)))) in *.
  assert (E : r / (10000 # 1) == r * (1 # 10000)) by (field; discriminate).
  rewrite E. split; lra.
Qed.

Local Close Scope Q_scope.

(** A pair of an exploratory result carries the score of its count up to
    0.00005, the rounding of [round(auc, 4)]; so the score in a pair may
    lie below the threshold, by 0.00005 at most. *)
Theorem returned_score_is_within_rounding
    (xgb_auc : DataFrame -> Labels -> DataFrame -> Labels -> Q)
    (clf : XGBClassifier) (kind : string) (fi : list (string * Q))
    (w : world) (xtrain xtest : ref) (Xtrain Xtest : DataFrame)
    (ytrain ytest : Labels) (auc_limit ci : Q)
    (steps : Z) (q75 q25 : Q) (start span : Z) :
  call_ok clf kind fi w xtrain xtest Xtrain Xtest ->
  let df := Pd.sort_values_desc fi in
  let score := auc_of xgb_auc df Xtrain ytrain Xtest ytest in
  let close := fun (s : Q) (n : Z) =>
    (score n - (1 # 20000) <= s)%Q /\ (s <= score n + (1 # 20000))%Q
    /\ (auc_limit * (ci - (1 - ci) / 2) - (1 # 20000) <= s)%Q in
  (forall (pairs : list (Q * Z)) (s : Q) (n : Z),
     fst (interpretable_precise_feature_selection xgb_auc clf start
            auc_limit kind ci span xtrain xtest ytrain ytest w)
     = inr pairs ->
     In (s, n) pairs -> close s n)
  /\ (quartiles df q75 q25 ->
      steps <> 0 ->
      forall (pairs : list (Q * Z)) (s : Q) (n : Z),
        fst (interpretable_feature_selection xgb_auc clf auc_limit kind ci
               steps xtrain xtest ytrain ytest w)
        = inr pairs ->
        In (s, n) pairs -> close s n).
Proof.
  intros (Hs & HX & HY) df score close.
  assert (Hclose : forall l s n,
            In (s, n) (accepted_pairs auc_limit ci score l) -> close s n).
  { intros l s n Hin. apply accepted_pairs_In in Hin.
    destruct Hin as (_ & Hacc & ->).
    unfold accepted, accepts, z_score in Hacc. apply Qle_bool_iff in Hacc.
    destruct (round4_error (score n)) as [H1 H2].
    unfold close. split; [exact H1|]. split; [exact H2|]. lra. }
  split.
  - intros pairs s n.
    rewrite (interpretable_precise_feature_selection_run xgb_auc clf kind fi
               Hs xtrain xtest Xtrain Xtest w HX HY ytrain ytest auc_limit
               ci start span).
    cbn [fst]. intros [= <-]. apply Hclose.
  - intros [H75 H25] Hsteps pairs s n.
    rewrite (interpretable_feature_selection_run xgb_auc clf kind fi Hs
               xtrain xtest Xtrain Xtest w HX HY ytrain ytest auc_limit ci
               steps q75 q25 H75 H25 Hsteps).
    cbn [fst]. intros [= <-]. apply Hclose.
Qed.

Lemma returned_score_is_within_rounding_witness :
  call_ok Demo.clf3 "gain" Demo.importance3 Demo.w3 Demo.xtrain Demo.xtest
          Demo.Xtrain3 Demo.Xtest3
  /\ fst (interpretable_precise_feature_selection Demo.auc_fine Demo.clf3 1
            0.5 "gain" 1 0 Demo.xtrain Demo.xtest Demo.ytrain3 Demo.ytest3
            Demo.w3)
     = inr [(0.9877%Q, 1)]
  /\ In (0.9877%Q, 1) [(0.9877%Q, 1)]
  /\ (auc_of Demo.auc_fine (Pd.sort_values_desc Demo.importance3)
             Demo.Xtrain3 Demo.ytrain3 Demo.Xtest3 Demo.ytest3 1
      - (1 # 20000) <= 0.9877)%Q.
Proof.
  assert (Hok : call_ok Demo.clf3 "gain" Demo.importance3 Demo.w3
                        Demo.xtrain Demo.xtest Demo.Xtrain3 Demo.Xtest3)
    by (split; [|split]; vm_compute; reflexivity).
  assert (Hrun : fst (interpretable_precise_feature_selection Demo.auc_fine
                        Demo.clf3 1 0.5 "gain" 1 0 Demo.xtrain Demo.xtest
                        Demo.ytrain3 Demo.ytest3 Demo.w3)
                 = inr [(0.9877%Q, 1)])
    by (vm_compute; reflexivity).
  assert (Hin : In (0.9877%Q, 1) [(0.9877%Q, 1)]) by (now left).
  destruct (returned_score_is_within_rounding Demo.auc_fine Demo.clf3 "gain"
              Demo.importance3 Demo.w3 Demo.xtrain Demo.xtest
              Demo.Xtrain3 Demo.Xtest3 Demo.ytrain3 Demo.ytest3 0.5 1 1
              1.50 0.7500 1 0 Hok) as [Hp _].
  split; [exact Hok|]. split; [exact Hrun|]. split; [exact Hin|].
  exact (proj1 (Hp _ _ _ Hrun Hin)).
Defined.

(** ** The confidence level *)

(** For a target that is not negative, a higher confidence level never
    accepts a score that a lower one refuses: the pairs an exploratory
    search returns at the higher level are among those it returns at the
    lower one.  With the default [ci = 0.99] the threshold is [0.985 *
    auc_limit]. *)
Theorem higher_confidence_accepts_no_more
    (xgb_auc : DataFrame -> Labels -> DataFrame -> Labels -> Q)
    (clf : XGBClassifier) (kind : string) (fi : list (string * Q))
    (w : world) (xtrain xtest : ref) (Xtrain Xtest : DataFrame)
    (ytrain ytest : Labels) (auc_limit ci1 ci2 : Q) (start span : Z) :
  call_ok clf kind fi w xtrain xtest Xtrain Xtest ->
  (0 <= auc_limit)%Q ->
  (ci1 <= ci2)%Q ->
  (forall s : Q,
     accepts s auc_limit (z_score ci2) = true ->
     accepts s auc_limit (z_score ci1) = true)
  /\ (forall (pairs1 pairs2 : list (Q * Z)),
        fst (interpretable_precise_feature_selection xgb_auc clf start
               auc_limit kind ci1 span xtrain xtest ytrain ytest w)
        = inr pairs1 ->
        fst (interpretable_precise_feature_selection xgb_auc clf start
               auc_limit kind ci2 span xtrain xtest ytrain ytest w)
        = inr pairs2 ->
        incl pairs2 pairs1)
  /\ (z_score default_ci == 0.985)%Q.
Proof.
  intros (Hs & HX & HY) Hlim Hci.
  assert (Hacc : forall s : Q,
            accepts s auc_limit (z_score ci2) = true ->
            accepts s auc_limit (z_score ci1) = true).
  { intros s H. unfold accepts, z_score in *.
    apply Qle_bool_iff. apply Qle_bool_iff in H.
    assert (H0 : (0 <= auc_limit * (ci2 - ci1))%Q)
      by (apply Qmult_le_0_compat; lra).
    assert (E : (auc_limit * (ci2 - (1 - ci2) / 2)
                 - auc_limit * (ci1 - (1 - ci1) / 2)
                 == (3 # 2) * (auc_limit * (ci2 - ci1)))%Q)
      by (field; discriminate).
    lra. }
  split; [exact Hacc|]. split; [|reflexivity].
  intros pairs1 pairs2.
  rewrite !(interpretable_precise_feature_selection_run xgb_auc clf kind fi
              Hs xtrain xtest Xtrain Xtest w HX HY ytrain ytest auc_limit
              _ start span).
  cbn [fst]. intros [= <-] [= <-] [s n] Hin.
  apply accepted_pairs_In in Hin. destruct Hin as (Hin & Ha & ->).
  apply accepted_pairs_In. split; [exact Hin|]. split; [|reflexivity].
  unfold accepted in *. now apply Hacc.
Qed.

Lemma higher_confidence_accepts_no_more_witness :
  call_ok Demo.clf70 "gain" Demo.importance70 Demo.w70
          Demo.xtrain Demo.xtest Demo.Xtrain70 Demo.Xtest70
  /\ (0 <= 0.9834)%Q
  /\ (0.99 <= 1)%Q
  /\ (accepts 0.9836 0.9834 (z_score 1) = true ->
      accepts 0.9836 0.9834 (z_score 0.99) = true).
Proof.
  assert (Hok : call_ok Demo.clf70 "gain" Demo.importance70 Demo.w70
                        Demo.xtrain Demo.xtest Demo.Xtrain70 Demo.Xtest70)
    by (split; [|split]; vm_compute; reflexivity).
  assert (H0 : (0 <= 0.9834)%Q) by discriminate.
  assert (H1 : (0.99 <= 1)%Q) by discriminate.
  destruct (higher_confidence_accepts_no_more Demo.auc70 Demo.clf70 "gain"
              Demo.importance70 Demo.w70 Demo.xtrain Demo.xtest
              Demo.Xtrain70 Demo.Xtest70 [] [] 0.9834 0.99 1 28 5
              Hok H0 H1) as [H _].
  split; [exact Hok|]. split; [exact H0|]. split; [exact H1|].
  apply H.
Defined.

(** ** The ranking and the nested subsets *)

Lemma insert_desc_perm (x : string * Q) (s : Series) :
  Permutation (x :: s) (Pd.insert_desc x s).
Proof.
  induction s as [|y s IH]; simpl; [reflexivity|].
  destruct (Qle_bool (snd y) (snd x)); [reflexivity|].
  rewrite perm_swap. now apply perm_skip.
Qed.

Lemma sort_values_desc_perm (s : Series) :
  Permutation s (Pd.sort_values_desc s).
Proof.
  induction s as [|x s IH]; simpl; [constructor|].
  rewrite <- insert_desc_perm. now apply perm_skip.
Qed.

Lemma insert_desc_sorted (x : string * Q) (s : Series) :
  StronglySorted (fun a b => (snd b <= snd a)%Q) s ->
  StronglySorted (fun a b => (snd b <= snd a)%Q) (Pd.insert_desc x s).
Proof.
  induction s as [|y s IH]; intros Hs; simpl.
  - repeat constructor.
  - inversion Hs as [|? ? Hs' Hall]; subst.
    destruct (Qle_bool (snd y) (snd x)) eqn:E.
    + apply Qle_bool_iff in E. constructor; [exact Hs|].
      constructor; [exact E|].
      eapply Forall_impl; [|exact Hall].
      intros b Hb. simpl in *. eapply Qle_trans; eassumption.
    + assert (Hxy : (snd x <= snd y)%Q).
      { apply Qlt_le_weak, Qnot_le_lt. intros H.
        apply Qle_bool_iff in H. congruence. }
      constructor; [apply IH, Hs'|].
      apply Forall_forall. intros b Hb.
      apply (Permutation_in _ (Permutation_sym (insert_desc_perm x s)))
        in Hb.
      destruct Hb as [<-|Hb]; [exact Hxy|].
      rewrite Forall_forall in Hall. now apply Hall.
Qed.

Lemma sort_values_desc_sorted (s : Series) :
  StronglySorted (fun a b => (snd b <= snd a)%Q) (Pd.sort_values_desc s).
Proof.
  induction s as [|x s IH]; simpl; [constructor|].
  now apply insert_desc_sorted.
Qed.

Lemma firstn_In {A : Type} (n : nat) (l : list A) (x : A) :
  In x (firstn n l) -> In x l.
Proof.
  intros H. rewrite <- (firstn_skipn n l). apply in_or_app. now left.
Qed.

Lemma skipn_In {A : Type} (n : nat) (l : list A) (x : A) :
  In x (skipn n l) -> In x l.
Proof.
  intros H. rewrite <- (firstn_skipn n l). apply in_or_app. now right.
Qed.

Lemma sorted_firstn_skipn {A : Type} (R : A -> A -> Prop) (l : list A)
    (n : nat) (x y : A) :
  StronglySorted R l -> In x (firstn n l) -> In y (skipn n l) -> R x y.
Proof.
  intros Hs. revert n. induction Hs as [|a l Hs IH Hall]; intros n Hx Hy.
  - destruct n; contradiction.
  - destruct n as [|n]; [contradiction|]. simpl in Hx, Hy.
    destruct Hx as [<-|Hx].
    + rewrite Forall_forall in Hall. apply Hall.
      eapply skipn_In. exact Hy.
    + eapply IH; eassumption.
Qed.

(** The ranking holds the entries [get_score] gave, each once, by
    descending score, and costs nothing in the state; so for a count that
    is not negative no feature that is dropped has a higher score than a
    feature that is kept. *)
Theorem ranking_is_sorted_permutation
    (clf : XGBClassifier) (kind : string) (fi : list (string * Q))
    (w : world) :
  get_score clf kind = inr fi ->
  exists df : Series,
    feature_importance_ranking clf kind w = (inr df, w)
    /\ Permutation fi df
    /\ StronglySorted (fun a b => (snd b <= snd a)%Q) df
    /\ (forall (n : Z) (kept dropped : string * Q),
          0 <= n ->
          In kept (Pd.iloc_to n df) ->
          In dropped df -> ~ In dropped (Pd.iloc_to n df) ->
          (snd dropped <= snd kept)%Q).
Proof.
  intros Hs. exists (Pd.sort_values_desc fi).
  split; [now apply feature_importance_ranking_run|].
  split; [apply sort_values_desc_perm|].
  split; [apply sort_values_desc_sorted|].
  intros n kept dropped Hn Hk Hd Hnd.
  unfold Pd.iloc_to in *. rewrite slice_to_nonneg in * by lia.
  rewrite <- (firstn_skipn (Z.to_nat n) (Pd.sort_values_desc fi)) in Hd.
  apply in_app_or in Hd. destruct Hd as [Hd|Hd]; [contradiction|].
  apply (sorted_firstn_skipn _ _ _ _ _ (sort_values_desc_sorted fi) Hk Hd).
Qed.

Lemma ranking_is_sorted_permutation_witness :
  get_score Demo.clf3 "gain" = inr Demo.importance3
  /\ exists df : Series,
       feature_importance_ranking Demo.clf3 "gain" Demo.w3
       = (inr df, Demo.w3)
       /\ Permutation Demo.importance3 df.
Proof.
  assert (Hs : get_score Demo.clf3 "gain" = inr Demo.importance3)
    by (vm_compute; reflexivity).
  destruct (ranking_is_sorted_permutation Demo.clf3 "gain" Demo.importance3
              Demo.w3 Hs) as (df & Hrun & Hperm & _).
  split; [exact Hs|]. exists df. split; [exact Hrun | exact Hperm].
Defined.

Lemma firstn_le_In {A : Type} (m n : nat) (l : list A) (x : A) :
  (m <= n)%nat -> In x (firstn m l) -> In x (firstn n l).
Proof.
  intros Hmn Hx.
  replace m with (Nat.min m n) in Hx by lia.
  rewrite <- firstn_firstn in Hx.
  eapply firstn_In. exact Hx.
Qed.

Lemma filter_filter_impl {A : Type} (f g : A -> bool) (l : list A) :
  (forall x, f x = true -> g x = true) ->
  filter f (filter g l) = filter f l.
Proof.
  intros H. induction l as [|x l IH]; [reflexivity|].
  simpl. destruct (g x) eqn:Eg; simpl.
  - now rewrite IH.
  - destruct (f x) eqn:Ef; [|exact IH].
    rewrite (H x Ef) in Eg. discriminate.
Qed.

(** The subsets are nested: of two counts that are both non-negative, or
    both negative, the smaller is fitted on columns of the larger, and
    narrowing the frame of the larger count to the smaller count gives
    the frame of the smaller count. *)
Theorem smaller_count_keeps_a_subset
    (df : Series) (X : DataFrame) (m n : Z) :
  (0 <= m <= n) \/ (m <= n < 0) ->
  (forall c : string,
     In c (Pd.columns (top_columns df m X)) ->
     In c (Pd.columns (top_columns df n X)))
  /\ top_columns df m (top_columns df n X) = top_columns df m X.
Proof.
  intros Hmn.
  assert (Hsub : forall x, In x (Pd.iloc_to m df) -> In x (Pd.iloc_to n df)).
  { intros x. unfold Pd.iloc_to. destruct Hmn as [H|H].
    - rewrite !slice_to_nonneg by lia. apply firstn_le_In. lia.
    - rewrite !slice_to_negative by lia. apply firstn_le_In. lia. }
  assert (Hidx : forall c, In c (Pd.index (Pd.iloc_to m df)) ->
                           In c (Pd.index (Pd.iloc_to n df))).
  { intros c Hc. unfold Pd.index in *. apply in_map_iff in Hc.
    destruct Hc as [x [<- Hx]]. apply in_map. now apply Hsub. }
  split.
  - intros c Hc. apply loc_isin_columns in Hc. apply loc_isin_columns.
    destruct Hc as [Hc1 Hc2]. split; [exact Hc1 | now apply Hidx].
  - unfold top_columns, Pd.loc_isin. apply filter_filter_impl.
    intros col Hcol. unfold Pd.isin in *.
    apply existsb_exists in Hcol. destruct Hcol as [v [Hv Heq]].
    apply existsb_exists. exists v. split; [now apply Hidx | exact Heq].
Qed.

Lemma smaller_count_keeps_a_subset_witness :
  (0 <= 1 <= 2 \/ 1 <= 2 < 0)
  /\ top_columns Demo.ranking3 1 (top_columns Demo.ranking3 2 Demo.Xtrain3)
     = top_columns Demo.ranking3 1 Demo.Xtrain3.
Proof.
  assert (H : 0 <= 1 <= 2 \/ 1 <= 2 < 0) by (left; lia).
  split; [exact H|].
  apply (smaller_count_keeps_a_subset Demo.ranking3 Demo.Xtrain3 1 2 H).
Defined.

(** ** Picking a pair from an exploratory result *)

Lemma tuple_le_total (p q : Q * Z) :
  Cell.tuple_le p q = false -> Cell.tuple_le q p = true.
Proof.
  unfold Cell.tuple_le. rewrite <- (Qcompare_antisym (fst p) (fst q)).
  destruct (Qcompare (fst p) (fst q)); simpl; try discriminate.
  - intros H. apply Z.leb_gt in H. apply Z.leb_le. lia.
  - reflexivity.
Qed.

Lemma tuple_le_trans (p q r : Q * Z) :
  Cell.tuple_le p q = true -> Cell.tuple_le q r = true ->
  Cell.tuple_le p r = true.
Proof.
  unfold Cell.tuple_le.
  destruct (Qcompare (fst p) (fst q)) eqn:E1; try discriminate;
    destruct (Qcompare (fst q) (fst r)) eqn:E2; try discriminate;
    intros H1 H2.
  - apply Qeq_alt in E1, E2.
    assert (E : (fst p == fst r)%Q) by (now rewrite E1).
    apply Qeq_alt in E. unfold Qcompare in E |- *. rewrite E.
    apply Z.leb_le in H1, H2. apply Z.leb_le. lia.
  - apply Qeq_alt in E1. apply Qlt_alt in E2.
    assert (E : (fst p < fst r)%Q) by (now rewrite E1).
    apply Qlt_alt in E. unfold Qcompare in E |- *. now rewrite E.
  - apply Qlt_alt in E1. apply Qeq_alt in E2.
    assert (E : (fst p < fst r)%Q) by (now rewrite <- E2).
    apply Qlt_alt in E. unfold Qcompare in E |- *. now rewrite E.
  - apply Qlt_alt in E1, E2.
    assert (E : (fst p < fst r)%Q) by (eapply Qlt_trans; eassumption).
    apply Qlt_alt in E. unfold Qcompare in E |- *. now rewrite E.
Qed.

Lemma tuple_le_refl (p : Q * Z) : Cell.tuple_le p p = true.
Proof.
  unfold Cell.tuple_le.
  assert (E : (fst p == fst p)%Q) by reflexivity.
  apply Qeq_alt in E. unfold Qcompare in E |- *. rewrite E.
  apply Z.leb_refl.
Qed.

Lemma insert_reverse_perm (x : Q * Z) (l : list (Q * Z)) :
  Permutation (x :: l) (Cell.insert_reverse x l).
Proof.
  induction l as [|y l IH]; simpl; [reflexivity|].
  destruct (Cell.tuple_le y x); [reflexivity|].
  rewrite perm_swap. now apply perm_skip.
Qed.

Lemma sorted_reverse_perm (l : list (Q * Z)) :
  Permutation l (Cell.sorted_reverse l).
Proof.
  induction l as [|x l IH]; simpl; [constructor|].
  rewrite <- insert_reverse_perm. now apply perm_skip.
Qed.

Lemma insert_reverse_sorted (x : Q * Z) (l : list (Q * Z)) :
  StronglySorted (fun a b => Cell.tuple_le b a = true) l ->
  StronglySorted (fun a b => Cell.tuple_le b a = true)
                 (Cell.insert_reverse x l).
Proof.
  induction l as [|y l IH]; intros Hs; simpl.
  - repeat constructor.
  - inversion Hs as [|? ? Hs' Hall]; subst.
    destruct (Cell.tuple_le y x) eqn:E.
    + constructor; [exact Hs|]. constructor; [exact E|].
      eapply Forall_impl; [|exact Hall].
      intros b Hb. simpl in Hb. eapply tuple_le_trans; eassumption.
    + constructor; [apply IH, Hs'|].
      apply Forall_forall. intros b Hb.
      apply (Permutation_in _ (Permutation_sym (insert_reverse_perm x l)))
        in Hb.
      destruct Hb as [<-|Hb]; [now apply tuple_le_total|].
      rewrite Forall_forall in Hall. now apply Hall.
Qed.

Lemma sorted_reverse_sorted (l : list (Q * Z)) :
  StronglySorted (fun a b => Cell.tuple_le b a = true)
                 (Cell.sorted_reverse l).
Proof.
  induction l as [|x l IH]; simpl; [constructor|].
  now apply insert_reverse_sorted.
Qed.

Lemma item_from_end_In {A : Type} (l : list A) (k : nat) (x : A) :
  Cell.item_from_end l k = inr x -> In x l.
Proof.
  unfold Cell.item_from_end. destruct (k <=? List.length l)%nat;
    [|discriminate].
  destruct (nth_error l (List.length l - k)) as [y|] eqn:E; [|discriminate].
  intros [= <-]. eapply nth_error_In. exact E.
Qed.

Lemma item_from_end_defined {A : Type} (l : list A) (k : nat) :
  (1 <= k <= List.length l)%nat ->
  exists x : A, Cell.item_from_end l k = inr x.
Proof.
  intros H. unfold Cell.item_from_end.
  destruct (Nat.leb_spec k (List.length l)); [|lia].
  destruct (nth_error l (List.length l - k)) as [y|] eqn:E.
  - now exists y.
  - apply nth_error_None in E. lia.
Qed.

Lemma item_from_end_short {A : Type} (l : list A) (k : nat) :
  (List.length l < k)%nat ->
  Cell.item_from_end l k = inl (IndexError "list index out of range").
Proof.
  intros H. unfold Cell.item_from_end.
  destruct (Nat.leb_spec k (List.length l)); [lia|reflexivity].
Qed.

Lemma sorted_last_least {A : Type} (R : A -> A -> Prop) (l : list A) (x : A) :
  (forall a, R a a) ->
  StronglySorted R l ->
  nth_error l (List.length l - 1) = Some x ->
  forall y, In y l -> R y x.
Proof.
  intros Hrefl Hs. induction Hs as [|a l Hs IH Hall]; intros Hx y Hy.
  - contradiction.
  - destruct l as [|b l].
    + simpl in Hx. injection Hx as <-. destruct Hy as [<-|[]]. apply Hrefl.
    + assert (Hx' : nth_error (b :: l) (List.length (b :: l) - 1) = Some x).
      { simpl in Hx |- *. now rewrite Nat.sub_0_r. }
      destruct Hy as [<-|Hy].
      * rewrite Forall_forall in Hall. apply Hall.
        eapply nth_error_In. exact Hx'.
      * now apply IH.
Qed.

Lemma picked_pair_nonempty (pairs : list (Q * Z)) :
  pairs <> [] ->
  exists p : Q * Z,
    Cell.last_sorted pairs = inr p
    /\ In p pairs
    /\ forall q : Q * Z, In q pairs ->
         (fst p <= fst q)%Q
         /\ ((fst q == fst p)%Q -> snd p <= snd q).
Proof.
  pose proof (sorted_reverse_perm pairs) as Hperm.
  pose proof (Permutation_length Hperm) as Hlen.
  intros Hne. unfold Cell.last_sorted.
  destruct (item_from_end_defined (Cell.sorted_reverse pairs) 1)
    as [p Hp].
  { rewrite <- Hlen. destruct pairs; [congruence|]. simpl. lia. }
  exists p. split; [exact Hp|].
  assert (Hin : In p pairs).
  { eapply Permutation_in; [apply Permutation_sym, Hperm|].
    eapply item_from_end_In. exact Hp. }
  split; [exact Hin|]. intros q Hq.
  assert (Hle : Cell.tuple_le p q = true).
  { apply (sorted_last_least (fun a b => Cell.tuple_le b a = true)
             (Cell.sorted_reverse pairs) p tuple_le_refl
             (sorted_reverse_sorted pairs)).
    - unfold Cell.item_from_end in Hp.
      destruct (1 <=? List.length (Cell.sorted_reverse pairs))%nat;
        [|discriminate].
      destruct (nth_error _ _) as [y|]; [|discriminate].
      now injection Hp as ->.
    - eapply Permutation_in; [exact Hperm | exact Hq]. }
  unfold Cell.tuple_le in Hle.
  destruct (Qcompare (fst p) (fst q)) eqn:E; [| |discriminate].
  + apply Qeq_alt in E. split; [rewrite E; apply Qle_refl|].
    intros _. now apply Z.leb_le.
  + apply Qlt_alt in E. split; [now apply Qlt_le_weak|].
    intros Heq. rewrite Heq in E. now apply Qlt_irrefl in E.
Qed.

(** [sorted(pairs, reverse=True)[-1]] raises [IndexError] on the empty
    list and otherwise gives a pair of the list that is least in the
    order of tuples: no pair has a lower score, and no pair with the same
    score has a lower count.  [sorted(pairs, reverse=True)[-3]] raises
    [IndexError] when there are fewer than three pairs and otherwise
    gives a pair of the list. *)
Theorem picked_pair_is_least
    (pairs : list (Q * Z)) :
  Cell.last_sorted [] = inl (IndexError "list index out of range")
  /\ (pairs <> [] ->
      exists p : Q * Z,
        Cell.last_sorted pairs = inr p
        /\ In p pairs
        /\ forall q : Q * Z, In q pairs ->
             (fst p <= fst q)%Q
             /\ ((fst q == fst p)%Q -> snd p <= snd q))
  /\ ((List.length pairs < 3)%nat ->
      Cell.third_from_end pairs
      = inl (IndexError "list index out of range"))
  /\ ((3 <= List.length pairs)%nat ->
      exists p : Q * Z, Cell.third_from_end pairs = inr p /\ In p pairs).
Proof.
  pose proof (sorted_reverse_perm pairs) as Hperm.
  pose proof (Permutation_length Hperm) as Hlen.
  split; [reflexivity|]. split; [|split].
  - apply picked_pair_nonempty.
  - intros Hshort. unfold Cell.third_from_end.
    apply item_from_end_short. lia.
  - intros Hlong. unfold Cell.third_from_end.
    destruct (item_from_end_defined (Cell.sorted_reverse pairs) 3)
      as [p Hp]; [lia|].
    exists p. split; [exact Hp|].
    eapply Permutation_in; [apply Permutation_sym, Hperm|].
    eapply item_from_end_In. exact Hp.
Qed.

Lemma picked_pair_is_least_witness :
  [(0.9817%Q, 33); (0.9804%Q, 28); (0.9800%Q, 27)] <> []
  /\ (3 <= List.length [(0.9817%Q, 33); (0.9804%Q, 28); (0.9800%Q, 27)])%nat
  /\ Cell.last_sorted [(0.9817%Q, 33); (0.9804%Q, 28); (0.9800%Q, 27)]
     = inr (0.9800%Q, 27)
  /\ exists p : Q * Z,
       Cell.third_from_end [(0.9817%Q, 33); (0.9804%Q, 28); (0.9800%Q, 27)]
       = inr p.
Proof.
  assert (Hne : [(0.9817%Q, 33); (0.9804%Q, 28); (0.9800%Q, 27)] <> [])
    by discriminate.
  assert (Hlen : (3 <= List.length [(0.9817%Q, 33); (0.9804%Q, 28);
                                    (0.9800%Q, 27)])%nat)
    by (simpl; lia).
  destruct (picked_pair_is_least
              [(0.9817%Q, 33); (0.9804%Q, 28); (0.9800%Q, 27)])
    as (_ & H1 & _ & H3).
  destruct (H1 Hne) as (p & Hp & _).
  destruct (H3 Hlen) as (p3 & Hp3 & _).
  split; [exact Hne|]. split; [exact Hlen|].
  split; [vm_compute; reflexivity|].
  exists p3. exact Hp3.
Defined.

(** The precise exploratory search followed by
    [sorted(...)[-1]]: when the search accepted a candidate the cell
    picks a scanned, accepted count, paired with its rounded score, and
    no returned pair has a lower score; when the search accepted none,
    which is when it warns, the cell raises [IndexError]. *)
Theorem picked_count_after_precise_search
    (xgb_auc : DataFrame -> Labels -> DataFrame -> Labels -> Q)
    (clf : XGBClassifier) (kind : string) (fi : list (string * Q))
    (w : world) (xtrain xtest : ref) (Xtrain Xtest : DataFrame)
    (ytrain ytest : Labels) (auc_limit ci : Q) (start span : Z) :
  call_ok clf kind fi w xtrain xtest Xtrain Xtest ->
  let df := Pd.sort_values_desc fi in
  let score := auc_of xgb_auc df Xtrain ytrain Xtest ytest in
  let precise := scan_down (start + span) (start - span) 1 in
  exists pairs : list (Q * Z),
    fst (interpretable_precise_feature_selection xgb_auc clf start
           auc_limit kind ci span xtrain xtest ytrain ytest w)
    = inr pairs
    /\ ((forall n : Z, In n precise ->
           accepted auc_limit ci score n = false) ->
        Cell.last_sorted pairs
        = inl (IndexError "list index out of range"))
    /\ ((exists n : Z, In n precise
                       /\ accepted auc_limit ci score n = true) ->
        exists (s : Q) (n : Z),
          Cell.last_sorted pairs = inr (s, n)
          /\ start - span <= n <= start + span
          /\ accepted auc_limit ci score n = true
          /\ s = Py.round (score n) 4
          /\ forall (s' : Q) (n' : Z), In (s', n') pairs -> (s <= s')%Q).
Proof.
  intros (Hs & HX & HY) df score precise.
  rewrite (interpretable_precise_feature_selection_run xgb_auc clf kind fi
             Hs xtrain xtest Xtrain Xtest w HX HY ytrain ytest auc_limit
             ci start span).
  fold df score precise.
  exists (accepted_pairs auc_limit ci score precise).
  split; [reflexivity|]. split.
  - intros Hnone.
    replace (accepted_pairs auc_limit ci score precise) with (@nil (Q * Z));
      [reflexivity|].
    symmetry. unfold accepted_pairs.
    replace (filter (accepted auc_limit ci score) precise) with (@nil Z);
      [reflexivity|].
    symmetry. clear -Hnone. induction precise as [|n l IH]; [reflexivity|].
    simpl. rewrite (Hnone n (or_introl eq_refl)). apply IH.
    intros m Hm. apply Hnone. now right.
  - intros [n0 [Hn0 Hacc0]].
    destruct (picked_pair_nonempty (accepted_pairs auc_limit ci score precise))
      as ([s n] & Hp & Hin & Hleast).
    { intros Hnil.
      assert (Hin0 : In (Py.round (score n0) 4, n0)
                        (accepted_pairs auc_limit ci score precise))
        by (apply accepted_pairs_In; auto).
      rewrite Hnil in Hin0. contradiction. }
    exists s, n. split; [exact Hp|].
    apply accepted_pairs_In in Hin. destruct Hin as (Hin & Hacc & Hs').
    apply scan_down_unit_In in Hin.
    split; [exact Hin|]. split; [exact Hacc|]. split; [exact Hs'|].
    intros s' n' H'. exact (proj1 (Hleast (s', n') H')).
Qed.

Lemma picked_count_after_precise_search_witness :
  call_ok Demo.clf70 "gain" Demo.importance70 Demo.w70
          Demo.xtrain Demo.xtest Demo.Xtrain70 Demo.Xtest70
  /\ accepted 0.98 1
       (auc_of Demo.auc70 (Pd.sort_values_desc Demo.importance70)
               Demo.Xtrain70 [] Demo.Xtest70 [])
       27 = true
  /\ exists pairs : list (Q * Z),
       fst (interpretable_precise_feature_selection Demo.auc70 Demo.clf70 28
              0.98 "gain" 1 5 Demo.xtrain Demo.xtest [] [] Demo.w70)
       = inr pairs
       /\ Cell.last_sorted pairs = inr (0.9800%Q, 27).
Proof.
  assert (Hok : call_ok Demo.clf70 "gain" Demo.importance70 Demo.w70
                        Demo.xtrain Demo.xtest Demo.Xtrain70 Demo.Xtest70)
    by (split; [|split]; vm_compute; reflexivity).
  assert (Hacc : accepted 0.98 1
                   (auc_of Demo.auc70 (Pd.sort_values_desc Demo.importance70)
                           Demo.Xtrain70 [] Demo.Xtest70 [])
                   27 = true)
    by (vm_compute; reflexivity).
  destruct (picked_count_after_precise_search Demo.auc70 Demo.clf70 "gain"
              Demo.importance70 Demo.w70 Demo.xtrain Demo.xtest
              Demo.Xtrain70 Demo.Xtest70 [] [] 0.98 1 28 5 Hok)
    as (pairs & Hrun & _ & Hsome).
  destruct Hsome as (s & n & Hpick & _).
  { exists 27. split; [vm_compute; tauto | exact Hacc]. }
  split; [exact Hok|]. split; [exact Hacc|].
  exists pairs. split; [exact Hrun|].
  assert (Hp : pairs = [(0.9817%Q, 33); (0.9815%Q, 32); (0.9812%Q, 31);
                        (0.9810%Q, 30); (0.9806%Q, 29); (0.9804%Q, 28);
                        (0.9800%Q, 27)]).
  { assert (Hf : fst (interpretable_precise_feature_selection Demo.auc70
                        Demo.clf70 28 0.98 "gain" 1 5 Demo.xtrain Demo.xtest
                        [] [] Demo.w70)
                 = inr [(0.9817%Q, 33); (0.9815%Q, 32); (0.9812%Q, 31);
                        (0.9810%Q, 30); (0.9806%Q, 29); (0.9804%Q, 28);
                        (0.9800%Q, 27)])
      by (vm_compute; reflexivity).
    rewrite Hrun in Hf. congruence. }
  rewrite Hp. vm_compute. reflexivity.
Defined.
